(** * TikTok comments scraper: the normalization core

    A shallow embedding of [src/outputs/formatter.py],
    [src/extractors/user_extractor.py] and the validity filter used by
    [src/main.py], over a model of the Python values the code handles
    (JSON-shaped data: [None], booleans, integers, floats, strings, lists and
    string-keyed dictionaries).

    Python exceptions are made explicit: every operation that can raise returns
    a [result].  Strings are sequences of code points below 256, which is
    what [ascii] offers; this range already contains the characters on which
    [str.isdigit] and [int] disagree. *)

From Stdlib Require Import ZArith List String Ascii Bool Lia.
From Stdlib Require Import DecimalString DecimalPos DecimalN DecimalZ Decimal.
Import ListNotations.
Local Open Scope string_scope.
Local Open Scope Z_scope.

(** ** Exceptions and results *)

Inductive exn : Type :=
| AttributeError
| TypeError
| ValueError
| OverflowError.

Inductive result (A : Type) : Type :=
| Ok (a : A)
| Raise (e : exn).
Arguments Ok {A} a.
Arguments Raise {A} e.

Definition bind {A B : Type} (m : result A) (k : A -> result B) : result B :=
  match m with
  | Ok a => k a
  | Raise e => Raise e
  end.

Notation "x <- m ;; k" := (bind m (fun x => k))
  (at level 61, m at next level, right associativity).

(** [try: x = m / except Exception: pass], with [x] bound to [dflt] before. *)
Definition try_or {A : Type} (m : result A) (dflt : A) : A :=
  match m with
  | Ok a => a
  | Raise _ => dflt
  end.

(** ** Python values *)

(** A float is kept as what CPython's shortest-digits conversion returns for
    it: a sign, the significant decimal digits (as a number) and the position
    of the decimal point, so that the value is 0.d1d2...dn * 10^decpt.  [repr]
    is injective on floats, so nothing is lost. *)
Inductive pyfloat : Type :=
| FNan
| FInf (neg : bool)
| FFinite (neg : bool) (mant : N) (decpt : Z).

#[warnings="-register-all"]
Inductive pyval : Type :=
| PNone
| PBool (b : bool)
| PInt (z : Z)
| PFloat (f : pyfloat)
| PStr (s : string)
| PList (l : list pyval)
| PDict (d : list (string * pyval)).

(** A dictionary is an association list in insertion order; [dict.get] and
    iteration both follow that order. *)
Definition pydict : Type := list (string * pyval).

Fixpoint lookup (k : string) (d : pydict) : option pyval :=
  match d with
  | [] => None
  | (k', v) :: d' => if String.eqb k k' then Some v else lookup k d'
  end.

(** [bool(v)] *)
Definition truthy (v : pyval) : bool :=
  match v with
  | PNone => false
  | PBool b => b
  | PInt z => negb (z =? 0)
  | PFloat FNan => true
  | PFloat (FInf _) => true
  | PFloat (FFinite _ m _) => negb (m =? 0)%N
  | PStr s => negb (String.eqb s "")
  | PList l => match l with [] => false | _ => true end
  | PDict d => match d with [] => false | _ => true end
  end.

(** [a or b] once both operands are evaluated. *)
Definition py_or (a b : pyval) : pyval := if truthy a then a else b.

(** [a or <b>], [b] evaluated only when [a] is falsy. *)
Definition or_else (a : pyval) (b : result pyval) : result pyval :=
  if truthy a then Ok a else b.

(** [o.get(k)]: an [AttributeError] unless [o] is a dictionary. *)
Definition py_get (o : pyval) (k : string) : result pyval :=
  match o with
  | PDict d => Ok (match lookup k d with Some v => v | None => PNone end)
  | _ => Raise AttributeError
  end.

(** [o.get(k, dflt)] *)
Definition py_get_default (o : pyval) (k : string) (dflt : pyval) : result pyval :=
  match o with
  | PDict d => Ok (match lookup k d with Some v => v | None => dflt end)
  | _ => Raise AttributeError
  end.

Definition is_dict (v : pyval) : bool :=
  match v with PDict _ => true | _ => false end.

Definition is_str (v : pyval) : bool :=
  match v with PStr _ => true | _ => false end.

(** ** Characters and strings *)

Definition code (c : ascii) : N := N_of_ascii c.

(** [int] accepts the decimal digits only. *)
Definition is_decimal (c : ascii) : bool :=
  ((48 <=? code c) && (code c <=? 57))%N.

(** [str.isdigit] also accepts the superscripts U+00B2, U+00B3 and U+00B9. *)
Definition is_digit_char (c : ascii) : bool :=
  (is_decimal c || (code c =? 178) || (code c =? 179) || (code c =? 185))%N.

(** Whitespace for [str.strip]: TAB..CR, FS..US, space, NEL and NBSP. *)
Definition is_space (c : ascii) : bool :=
  (((9 <=? code c) && (code c <=? 13)) || ((28 <=? code c) && (code c <=? 32))
   || (code c =? 133) || (code c =? 160))%N.

Fixpoint all_chars (p : ascii -> bool) (s : string) : bool :=
  match s with
  | EmptyString => true
  | String c s' => p c && all_chars p s'
  end.

(** [s.isdigit()] *)
Definition isdigit (s : string) : bool :=
  negb (String.eqb s "") && all_chars is_digit_char s.

Fixpoint lstrip (s : string) : string :=
  match s with
  | EmptyString => EmptyString
  | String c s' => if is_space c then lstrip s' else s
  end.

(** Drops trailing whitespace: a character stays when it is not a space or
    something stays after it. *)
Fixpoint rstrip (s : string) : string :=
  match s with
  | EmptyString => EmptyString
  | String c s' =>
      match rstrip s' with
      | EmptyString => if is_space c then EmptyString else String c EmptyString
      | r => String c r
      end
  end.

(** [s.strip()] *)
Definition strip (s : string) : string := rstrip (lstrip s).

Fixpoint repeat_char (c : ascii) (n : nat) : string :=
  match n with
  | O => EmptyString
  | S n' => String c (repeat_char c n')
  end.

Fixpoint take (n : nat) (s : string) : string :=
  match n, s with
  | S n', String c s' => String c (take n' s')
  | _, _ => EmptyString
  end.

Fixpoint drop (n : nat) (s : string) : string :=
  match n, s with
  | S n', String _ s' => drop n' s'
  | _, _ => s
  end.

Fixpoint join (sep : string) (l : list string) : string :=
  match l with
  | [] => EmptyString
  | [x] => x
  | x :: l' => x ++ sep ++ join sep l'
  end.

Fixpoint contains_char (c : ascii) (s : string) : bool :=
  match s with
  | EmptyString => false
  | String c' s' => Ascii.eqb c c' || contains_char c s'
  end.

(** ** [str], [repr] and [int] *)

(** [str(z)] for an integer. *)
Definition str_of_Z (z : Z) : string := NilZero.string_of_int (Z.to_int z).

Definition digits_of_N (n : N) : string := NilZero.string_of_uint (N.to_uint n).

(** The exponent of a float in scientific notation: a sign and at least two
    digits. *)
Definition exponent_str (e : Z) : string :=
  let a := digits_of_N (Z.abs_N e) in
  (if e <? 0 then "-" else "+") ++ (if Z.abs e <? 10 then "0" ++ a else a).

(** [repr] of a float, from its shortest digits: scientific notation when the
    decimal point is at -4 or before, or beyond 16; otherwise positional, with
    ".0" added to an integral value. *)
Definition float_repr (f : pyfloat) : string :=
  match f with
  | FNan => "nan"
  | FInf neg => if neg then "-inf" else "inf"
  | FFinite neg m decpt =>
      let ds := digits_of_N m in
      let n := Z.of_nat (String.length ds) in
      (if neg then "-" else "") ++
      (if (decpt <=? -4) || (16 <? decpt) then
         take 1 ds ++ (if 1 <? n then "." ++ drop 1 ds else "")
         ++ "e" ++ exponent_str (decpt - 1)
       else if decpt <=? 0 then
         "0." ++ repeat_char "0" (Z.to_nat (- decpt)) ++ ds
       else if decpt <? n then
         take (Z.to_nat decpt) ds ++ "." ++ drop (Z.to_nat decpt) ds
       else
         ds ++ repeat_char "0" (Z.to_nat (decpt - n)) ++ ".0")
  end.

Definition hex_digit (n : N) : ascii :=
  ascii_of_N (if (n <? 10)%N then 48 + n else 87 + n)%N.

(** Code points [repr] prints as they are. *)
Definition is_printable (c : ascii) : bool :=
  (((32 <=? code c) && (code c <? 127))
   || ((161 <=? code c) && negb (code c =? 173)))%N.

Definition backslash : ascii := ascii_of_N 92.
Definition double_quote : ascii := ascii_of_N 34.

Definition escape_char (quote : ascii) (c : ascii) : string :=
  if Ascii.eqb c quote || Ascii.eqb c backslash then String backslash (String c "")
  else if (code c =? 9)%N then String backslash "t"
  else if (code c =? 10)%N then String backslash "n"
  else if (code c =? 13)%N then String backslash "r"
  else if is_printable c then String c ""
  else String backslash (String "x" (String (hex_digit (code c / 16))
                                       (String (hex_digit (code c mod 16)) ""))).

Fixpoint escape (quote : ascii) (s : string) : string :=
  match s with
  | EmptyString => EmptyString
  | String c s' => escape_char quote c ++ escape quote s'
  end.

(** [repr] of a string: double quotes only when the string holds a single
    quote and no double quote. *)
Definition str_repr (s : string) : string :=
  let quote : ascii :=
    if contains_char "'" s && negb (contains_char double_quote s)
    then double_quote else "'"%char in
  String quote (escape quote s ++ String quote "").

Fixpoint py_repr (v : pyval) : string :=
  match v with
  | PNone => "None"
  | PBool b => if b then "True" else "False"
  | PInt z => str_of_Z z
  | PFloat f => float_repr f
  | PStr s => str_repr s
  | PList l => "[" ++ join ", " (map py_repr l) ++ "]"
  | PDict d =>
      "{" ++ join ", " (map (fun kv => match kv with
                                      | (k, x) => str_repr k ++ ": " ++ py_repr x
                                      end) d) ++ "}"
  end.

(** [str(v)], which is also what an f-string puts for [{v}]. *)
Definition py_str (v : pyval) : string :=
  match v with
  | PStr s => s
  | _ => py_repr v
  end.

Fixpoint parse_decimal (acc : Z) (s : string) : option Z :=
  match s with
  | EmptyString => Some acc
  | String c s' =>
      if is_decimal c then parse_decimal (10 * acc + Z.of_N (code c - 48)) s'
      else None
  end.

(** [int(v)].  The code applies it to a string only after [isdigit], so
    blanks, signs and underscores never reach it: a string of decimal digits
    is read, any other character is a [ValueError].  A float is truncated. *)
Definition py_int (v : pyval) : result Z :=
  match v with
  | PInt z => Ok z
  | PBool b => Ok (if b then 1 else 0)
  | PStr s =>
      match s with
      | EmptyString => Raise ValueError
      | _ => match parse_decimal 0 s with
             | Some z => Ok z
             | None => Raise ValueError
             end
      end
  | PFloat FNan => Raise ValueError
  | PFloat (FInf _) => Raise OverflowError
  | PFloat (FFinite neg m decpt) =>
      let n := Z.of_nat (String.length (digits_of_N m)) in
      let a := if n <=? decpt then Z.of_N m * 10 ^ (decpt - n)
               else Z.of_N m / 10 ^ (n - decpt) in
      Ok (if neg then - a else a)
  | _ => Raise TypeError
  end.

(** [isinstance(v, (int, float, str))]; a [bool] is an [int]. *)
Definition is_int_float_str (v : pyval) : bool :=
  match v with
  | PBool _ | PInt _ | PFloat _ | PStr _ => true
  | _ => false
  end.

(** What [for u in v] goes through: the items of a list, the characters of
    a string, the keys of a dictionary; nothing else here is iterable. *)
Definition py_iter (v : pyval) : result (list pyval) :=
  match v with
  | PList l => Ok l
  | PStr s => Ok (map (fun c => PStr (String c "")) (list_ascii_of_string s))
  | PDict d => Ok (map (fun kv => PStr (fst kv)) d)
  | _ => Raise TypeError
  end.

(** [o.get(k) or o.get(k1) or ... or o.get(kn)], evaluated left to right and
    stopping at the first truthy value. *)
Fixpoint get_or (o : pyval) (k : string) (ks : list string) : result pyval :=
  match ks with
  | [] => py_get o k
  | k' :: ks' => v <- py_get o k ;; or_else v (get_or o k' ks')
  end.

(** [o.get(k) or ... or o.get(kn) or dflt] *)
Definition get_or_default (o : pyval) (k : string) (ks : list string)
    (dflt : pyval) : result pyval :=
  v <- get_or o k ks ;; Ok (py_or v dflt).

(** ** [extractors/user_extractor.py] *)

(** The test of the last comprehension of [normalize_avatar_urls]:
    [isinstance(u, str) and u.strip()]. *)
Definition keep_url (u : pyval) : bool :=
  match u with
  | PStr s => truthy (PStr (strip s))
  | _ => false
  end.

(** The value of [urls] when the final comprehension is reached: the
    snake-case path, then the camel-case path, each inside its own
    [try]/[except], then the single string. *)
Definition avatar_candidate (user : pyval) : result pyval :=
  let urls := PList [] in
  let urls :=
    try_or (t <- py_get_default user "avatar_thumb" (PDict []) ;;
            u <- py_get t "url_list" ;;
            Ok (py_or u (PList []))) urls in
  let urls :=
    if negb (truthy urls) then
      try_or (t <- py_get_default user "avatarThumb" (PDict []) ;;
              u <- py_get t "urlList" ;;
              Ok (py_or u (PList []))) urls
    else urls in
  if negb (truthy urls) then
    a <- py_get user "avatar" ;;
    single <- or_else a (py_get user "avatarUrl") ;;
    match single with
    | PStr s => if truthy (PStr (strip s)) then Ok (PList [PStr (strip s)])
                else Ok urls
    | _ => Ok urls
    end
  else Ok urls.

Definition normalize_avatar_urls (user : pyval) : result pyval :=
  if negb (is_dict user) then Ok (PList [])
  else
    urls <- avatar_candidate user ;;
    items <- py_iter urls ;;
    Ok (PList (filter keep_url items)).

Definition build_user_block (user : pyval) : result pyval :=
  nickname <- get_or_default user "nickname"
                ["nicknameName"; "display_name"; "displayName"] (PStr "") ;;
  unique_id <- get_or_default user "unique_id"
                 ["uniqueId"; "username"; "uid"] (PStr "") ;;
  urls <- normalize_avatar_urls user ;;
  Ok (PDict [("nickname", nickname);
             ("unique_id", unique_id);
             ("avatar_thumb", PDict [("url_list", urls)])]).

(** ** [outputs/formatter.py] *)

Definition build_share_url_fallback (aweme_id cid : pyval) (source_url : string)
    : pyval :=
  if truthy aweme_id && truthy cid then
    PStr ("https://m.tiktok.com/v/" ++ py_str aweme_id
          ++ ".html?share_comment_id=" ++ py_str cid)
  else py_or (PStr source_url) (PStr "").

(** [str(v) if v else ""] *)
Definition str_or_empty (v : pyval) : pyval :=
  PStr (if truthy v then py_str v else "").

(** [int(v) if isinstance(v, (int, float, str)) and str(v).isdigit() else 0] *)
Definition int_or_zero (v : pyval) : result pyval :=
  if is_int_float_str v && isdigit (py_str v) then z <- py_int v ;; Ok (PInt z)
  else Ok (PInt 0).

Definition format_comment_record (raw : pyval) (source_url : string)
    : result pyval :=
  pin <- get_or raw "author_pin" ["isPinned"; "pinned"] ;;
  let author_pin := PBool (truthy pin) in
  aweme_id <- get_or_default raw "aweme_id"
                ["awemeId"; "video_id"; "videoId"] (PStr "") ;;
  cid <- get_or_default raw "cid" ["comment_id"; "id"] (PStr "") ;;
  lang <- get_or_default raw "comment_language" ["lang"; "language"] (PStr "") ;;
  create_time <- get_or_default raw "create_time"
                   ["createTime"; "timestamp"] (PInt 0) ;;
  digg <- get_or_default raw "digg_count" ["like_count"; "likes"] (PInt 0) ;;
  replies <- get_or_default raw "reply_comment_total"
               ["reply_count"; "replies"] (PInt 0) ;;
  text <- get_or_default raw "text" ["comment"; "content"] (PStr "") ;;
  user <- get_or_default raw "user" ["author"] (PDict []) ;;
  user_block <- build_user_block user ;;
  share_info <- get_or_default raw "share_info" [] (PDict []) ;;
  share_url <- (if is_dict share_info
                then get_or_default share_info "url" [] (PStr "")
                else Ok (PStr "")) ;;
  create_time' <- int_or_zero create_time ;;
  digg' <- int_or_zero digg ;;
  replies' <- int_or_zero replies ;;
  Ok (PDict
        [("author_pin", PBool (truthy author_pin));
         ("aweme_id", str_or_empty aweme_id);
         ("cid", str_or_empty cid);
         ("comment_language", str_or_empty lang);
         ("create_time", create_time');
         ("digg_count", digg');
         ("reply_comment_total", replies');
         ("text", text);
         ("user", user_block);
         ("share_info",
          PDict [("url", py_or share_url
                           (build_share_url_fallback aweme_id cid source_url))])]).

(** ** [extractors/utils.py]: the validity filter *)

Definition comment_keys : list string :=
  ["text"; "comment"; "content"; "cid"; "comment_id"; "id"].

(** Modelled from the spec: [is_comment_like] is imported by [main.py] from
    [extractors/utils.py], whose text stops before its definition.  True when
    [raw] is a mapping and one of the text or identity keys is present with a
    non-empty value, non-empty being what the field resolver means by it
    (empty string, empty list, zero and null are empty). *)
Definition is_comment_like (raw : pyval) : bool :=
  match raw with
  | PDict d =>
      existsb (fun k => match lookup k d with
                        | Some v => truthy v
                        | None => false
                        end) comment_keys
  | _ => false
  end.

(** ** Reading a record back *)

(** [r[k]] for a record [r], [None] when [r] is not a mapping or lacks [k]. *)
Definition field (k : string) (r : pyval) : option pyval :=
  match r with
  | PDict d => lookup k d
  | _ => None
  end.

(** [r[k1][k2]...] *)
Fixpoint path (ks : list string) (r : pyval) : option pyval :=
  match ks with
  | [] => Some r
  | k :: ks' => match field k r with
                | Some v => path ks' v
                | None => None
                end
  end.




(** The first truthy value among the values of [ks] in [d], in the order of
    [ks]; [dflt] when there is none. *)
Fixpoint first_truthy (d : pydict) (ks : list string) (dflt : pyval) : pyval :=
  match ks with
  | [] => dflt
  | k :: ks' =>
      match lookup k d with
      | Some v => if truthy v then v else first_truthy d ks' dflt
      | None => first_truthy d ks' dflt
      end
  end.

(** ** The values a raw mapping resolves to

    Each output field is derived from the first truthy value among its
    candidate keys. *)

Definition resolved_pin (d : pydict) : pyval :=
  first_truthy d ["author_pin"; "isPinned"; "pinned"] PNone.
Definition resolved_aweme_id (d : pydict) : pyval :=
  first_truthy d ["aweme_id"; "awemeId"; "video_id"; "videoId"] (PStr "").
Definition resolved_cid (d : pydict) : pyval :=
  first_truthy d ["cid"; "comment_id"; "id"] (PStr "").
Definition resolved_lang (d : pydict) : pyval :=
  first_truthy d ["comment_language"; "lang"; "language"] (PStr "").
Definition resolved_create_time (d : pydict) : pyval :=
  first_truthy d ["create_time"; "createTime"; "timestamp"] (PInt 0).
Definition resolved_digg (d : pydict) : pyval :=
  first_truthy d ["digg_count"; "like_count"; "likes"] (PInt 0).
Definition resolved_replies (d : pydict) : pyval :=
  first_truthy d ["reply_comment_total"; "reply_count"; "replies"] (PInt 0).
Definition resolved_text (d : pydict) : pyval :=
  first_truthy d ["text"; "comment"; "content"] (PStr "").
Definition resolved_user (d : pydict) : pyval :=
  first_truthy d ["user"; "author"] (PDict []).

(** The [url] of the nested [share_info] mapping, [""] when there is no such
    mapping or its [url] is empty. *)
Definition resolved_share_url (d : pydict) : pyval :=
  match first_truthy d ["share_info"] (PDict []) with
  | PDict sd => first_truthy sd ["url"] (PStr "")
  | _ => PStr ""
  end.

(** ** Shapes on which the normalizer returns *)

Definition iterable (v : pyval) : bool :=
  match v with
  | PList _ | PStr _ | PDict _ => true
  | _ => false
  end.

(** The avatar container the user mapping selects can be iterated. *)
Definition avatar_iterable (user : pyval) : bool :=
  match avatar_candidate user with
  | Ok c => iterable c
  | Raise _ => false
  end.

(** A value [int_or_zero] can coerce: anything but a string that [isdigit]
    accepts and that holds a superscript digit. *)
Definition coercible (v : pyval) : bool :=
  match v with
  | PStr s => negb (isdigit s) || all_chars is_decimal s
  | _ => true
  end.

Definition well_shaped (d : pydict) : bool :=
  is_dict (resolved_user d) && avatar_iterable (resolved_user d)
  && coercible (resolved_create_time d) && coercible (resolved_digg d)
  && coercible (resolved_replies d).

(** The value at the nested path [k1.k2] of a user mapping: [None] when a
    segment is missing or [k1] does not hold a mapping. *)
Definition nested (u : pydict) (k1 k2 : string) : pyval :=
  match lookup k1 u with
  | Some (PDict t) => match lookup k2 t with
                      | Some v => v
                      | None => PNone
                      end
  | _ => PNone
  end.

(** The first truthy value of [avatar], [avatarUrl]. *)
Definition single_avatar (u : pydict) : pyval :=
  first_truthy u ["avatar"; "avatarUrl"] PNone.

(** The canonical user block. *)
Definition user_block (nickname unique_id : pyval) (urls : list pyval) : pyval :=
  PDict [("nickname", nickname);
         ("unique_id", unique_id);
         ("avatar_thumb", PDict [("url_list", PList urls)])].

(** The canonical comment record. *)
Definition record (author_pin aweme_id cid lang create_time digg replies text
                   user url : pyval) : pyval :=
  PDict [("author_pin", author_pin);
         ("aweme_id", aweme_id);
         ("cid", cid);
         ("comment_language", lang);
         ("create_time", create_time);
         ("digg_count", digg);
         ("reply_comment_total", replies);
         ("text", text);
         ("user", user);
         ("share_info", PDict [("url", url)])].

(** The share URL of the record built from [d]. *)
Definition share_url_of (d : pydict) (source_url : string) : pyval :=
  py_or (resolved_share_url d)
    (build_share_url_fallback (resolved_aweme_id d) (resolved_cid d) source_url).

(** A field of what a call returned, [None] when it raised. *)
Definition result_field (k : string) (res : result pyval) : option pyval :=
  match res with
  | Ok r => field k r
  | Raise _ => None
  end.

Definition result_path (ks : list string) (res : result pyval) : option pyval :=
  match res with
  | Ok r => path ks r
  | Raise _ => None
  end.

(** The fields for which a literal zero or false is a meaningful value, with
    the output key, the first candidate key, the later candidate keys, the
    default and the coercion of each. *)
Inductive zero_field : Type :=
| FAuthorPin
| FCreateTime
| FDiggCount
| FReplyTotal.

Definition out_key (f : zero_field) : string :=
  match f with
  | FAuthorPin => "author_pin"
  | FCreateTime => "create_time"
  | FDiggCount => "digg_count"
  | FReplyTotal => "reply_comment_total"
  end.

Definition first_key (f : zero_field) : string :=
  match f with
  | FAuthorPin => "author_pin"
  | FCreateTime => "create_time"
  | FDiggCount => "digg_count"
  | FReplyTotal => "reply_comment_total"
  end.

Definition later_keys (f : zero_field) : list string :=
  match f with
  | FAuthorPin => ["isPinned"; "pinned"]
  | FCreateTime => ["createTime"; "timestamp"]
  | FDiggCount => ["like_count"; "likes"]
  | FReplyTotal => ["reply_count"; "replies"]
  end.

Definition default_of (f : zero_field) : pyval :=
  match f with
  | FAuthorPin => PNone
  | _ => PInt 0
  end.

Definition coerce (f : zero_field) (v : pyval) : result pyval :=
  match f with
  | FAuthorPin => Ok (PBool (truthy v))
  | _ => int_or_zero v
  end.

(** What the normalizer returns, [None] standing for a raised exception. *)
Definition returned (res : result pyval) : pyval :=
  match res with
  | Ok r => r
  | Raise _ => PNone
  end.

Definition zero_then_five : pydict :=
  [("create_time", PInt 0); ("createTime", PInt 5)].

(** The avatar container the code settles on: the first of the two nested
    values that is non-empty as given, whatever its elements; otherwise the
    single string, trimmed, when it is not blank. *)
Definition selected_avatar (u : pydict) : pyval :=
  if truthy (nested u "avatar_thumb" "url_list")
  then nested u "avatar_thumb" "url_list"
  else if truthy (nested u "avatarThumb" "urlList")
  then nested u "avatarThumb" "urlList"
  else match single_avatar u with
       | PStr s => if negb (String.eqb (strip s) "") then PList [PStr (strip s)]
                   else PList []
       | _ => PList []
       end.

(** A string that is not blank. *)
Definition not_blank (v : pyval) : Prop :=
  exists s, v = PStr s /\ strip s <> "".

Definition blank_then_url : pydict :=
  [("avatar_thumb", PDict [("url_list", PList [PStr ""])]);
   ("avatarThumb", PDict [("urlList", PList [PStr "http://y/b.jpg"])])].

Definition number_then_url : pydict :=
  [("avatar_thumb", PDict [("url_list", PList [PInt 123])]);
   ("avatarThumb", PDict [("urlList", PList [PStr "http://y/b.jpg"])])].

Definition empty_then_url : pydict :=
  [("avatar_thumb", PDict [("url_list", PList [])]);
   ("avatarThumb", PDict [("urlList", PList [PStr "http://y/b.jpg"])])].

Definition padded_url : pydict :=
  [("avatar_thumb", PDict [("url_list", PList [PStr "  http://x/a.jpg  "])])].

Definition ids_only : pydict := [("aweme_id", PStr "123"); ("cid", PStr "456")].

Definition text_only : pydict := [("text", PStr "hi")].

Definition number_as_text : pydict := [("text", PInt 7)].

(** A raw comment that exercises every field. *)
Definition full_comment : pydict :=
  [("isPinned", PBool true);
   ("awemeId", PInt 7171782248281165058);
   ("cid", PStr "456");
   ("lang", PStr "en");
   ("createTime", PStr "1700000000");
   ("likes", PInt 12);
   ("reply_count", PFloat (FFinite false 3 1));
   ("comment", PStr "nice");
   ("author", PDict [("uniqueId", PStr "bob");
                     ("avatarThumb",
                      PDict [("urlList", PList [PStr " http://y/b.jpg"; PNone])])])].

(** The deep link to a comment of a video. *)
Definition deep_link (aweme_id cid : string) : string :=
  "https://m.tiktok.com/v/" ++ aweme_id ++ ".html?share_comment_id=" ++ cid.

(** A string with no blank at either end. *)
Definition trimmed (s : string) : bool := String.eqb (strip s) s.

Definition sup2 : string := String (ascii_of_N 178) "".

(** ** [outputs/exporter.py] *)

(** [s.split(sep)] for a one-character separator: always at least one part. *)
Fixpoint split_on (sep : ascii) (s : string) : list string :=
  match s with
  | EmptyString => [EmptyString]
  | String c s' =>
      if Ascii.eqb c sep then EmptyString :: split_on sep s'
      else match split_on sep s' with
           | [] => [String c EmptyString]
           | part :: parts => String c part :: parts
           end
  end.

(** The loop of [walk_path] over the parts of a path; Python's [None] is
    [PNone]. *)
Fixpoint walk_parts (cur : pyval) (parts : list string) : pyval :=
  match parts with
  | [] => cur
  | part :: parts' =>
      match cur with
      | PDict d => match lookup part d with
                   | Some v => walk_parts v parts'
                   | None => PNone
                   end
      | _ => PNone
      end
  end.

Definition walk_path (obj : pyval) (path : string) : pyval :=
  walk_parts obj (split_on "." path).

(** [json.dumps(s, ensure_ascii=False)] on the characters of a string: the
    quote, the backslash and the control characters are escaped. *)
Definition json_escape_char (c : ascii) : string :=
  if (code c =? 34)%N then String backslash (String double_quote "")
  else if (code c =? 92)%N then String backslash (String backslash "")
  else if (code c =? 10)%N then String backslash "n"
  else if (code c =? 13)%N then String backslash "r"
  else if (code c =? 9)%N then String backslash "t"
  else if (code c =? 8)%N then String backslash "b"
  else if (code c =? 12)%N then String backslash "f"
  else if (code c <? 32)%N then
    String backslash
      (String "u" (String "0" (String "0"
         (String (hex_digit (code c / 16))
            (String (hex_digit (code c mod 16)) "")))))
  else String c "".

Fixpoint json_escape (s : string) : string :=
  match s with
  | EmptyString => EmptyString
  | String c s' => json_escape_char c ++ json_escape s'
  end.

Definition json_string (s : string) : string :=
  String double_quote (json_escape s ++ String double_quote "").

Definition json_float (f : pyfloat) : string :=
  match f with
  | FNan => "NaN"
  | FInf neg => if neg then "-Infinity" else "Infinity"
  | FFinite _ _ _ => float_repr f
  end.

(** [json.dumps(v, ensure_ascii=False)], with the default separators. *)
Fixpoint json_dumps (v : pyval) : string :=
  match v with
  | PNone => "null"
  | PBool b => if b then "true" else "false"
  | PInt z => str_of_Z z
  | PFloat f => json_float f
  | PStr s => json_string s
  | PList l => "[" ++ join ", " (map json_dumps l) ++ "]"
  | PDict d =>
      "{" ++ join ", " (map (fun kv => match kv with
                                      | (k, x) => json_string k ++ ": " ++ json_dumps x
                                      end) d) ++ "}"
  end.

(** [out[k] = v] on a dictionary in insertion order. *)
Fixpoint dict_set {A : Type} (k : string) (v : A) (d : list (string * A))
    : list (string * A) :=
  match d with
  | [] => [(k, v)]
  | (k', v') :: d' =>
      if String.eqb k k' then (k, v) :: d' else (k', v') :: dict_set k v d'
  end.

Fixpoint dict_get {A : Type} (k : string) (d : list (string * A)) : option A :=
  match d with
  | [] => None
  | (k', v) :: d' => if String.eqb k k' then Some v else dict_get k d'
  end.

(** The text [flatten_for_csv] stores for a value. *)
Definition csv_cell (value : pyval) : string :=
  match value with
  | PList _ | PDict _ => json_dumps value
  | PNone => ""
  | _ => py_str value
  end.

Definition flatten_for_csv (record : pyval) (field_order : list string)
    : list (string * string) :=
  fold_left (fun out path => dict_set path (csv_cell (walk_path record path)) out)
    field_order [].

(** [s.lower()] *)
Definition lower_char (c : ascii) : ascii :=
  if (((65 <=? code c) && (code c <=? 90))
      || ((192 <=? code c) && (code c <=? 222) && negb (code c =? 215)))%N
  then ascii_of_N (code c + 32) else c.

Fixpoint lower (s : string) : string :=
  match s with
  | EmptyString => EmptyString
  | String c s' => String (lower_char c) (lower s')
  end.

(** The state of an [Exporter].  The file is kept as what was given to it:
    the rows buffered for JSON, the text written for JSON lines, and the rows
    of cells handed to the CSV writer, header first. *)
Record exporter : Type := {
  ex_format : string;
  ex_field_order : list string;
  ex_buffer : list pyval;
  ex_text : list string;
  ex_rows : list (list string)
}.

(** [Exporter.__init__], the directory and the file left aside. *)
Definition exporter_init (output_format : string) (field_order : list string)
    : result exporter :=
  let fmt := lower output_format in
  if String.eqb fmt "json" then
    Ok {| ex_format := fmt; ex_field_order := field_order;
          ex_buffer := []; ex_text := []; ex_rows := [] |}
  else if String.eqb fmt "jsonl" then
    Ok {| ex_format := fmt; ex_field_order := field_order;
          ex_buffer := []; ex_text := []; ex_rows := [] |}
  else if String.eqb fmt "csv" then
    Ok {| ex_format := fmt; ex_field_order := field_order;
          ex_buffer := []; ex_text := []; ex_rows := [field_order] |}
  else Raise ValueError.

(** The cells a [DictWriter] writes for a row: one per field name, empty when
    the row lacks the name. *)
Definition csv_cells (fieldnames : list string) (flat : list (string * string))
    : list string :=
  map (fun k => match dict_get k flat with Some v => v | None => "" end)
    fieldnames.

Definition newline : string := String (ascii_of_N 10) "".

Definition write_one (e : exporter) (row : pyval) : exporter :=
  if String.eqb (ex_format e) "json" then
    {| ex_format := ex_format e; ex_field_order := ex_field_order e;
       ex_buffer := (ex_buffer e ++ [row])%list;
       ex_text := ex_text e; ex_rows := ex_rows e |}
  else if String.eqb (ex_format e) "jsonl" then
    {| ex_format := ex_format e; ex_field_order := ex_field_order e;
       ex_buffer := ex_buffer e;
       ex_text := (ex_text e ++ [(json_dumps row ++ newline)%string])%list;
       ex_rows := ex_rows e |}
  else if String.eqb (ex_format e) "csv" then
    {| ex_format := ex_format e; ex_field_order := ex_field_order e;
       ex_buffer := ex_buffer e; ex_text := ex_text e;
       ex_rows := (ex_rows e ++
                   [csv_cells (ex_field_order e)
                      (flatten_for_csv row (ex_field_order e))])%list |}
  else e.

Definition write_many (e : exporter) (rows : list pyval) : exporter :=
  fold_left write_one rows e.

(** The [field_order] that [main.py] gives its exporter. *)
Definition main_field_order : list string :=
  ["author_pin"; "aweme_id"; "cid"; "comment_language"; "create_time";
   "digg_count"; "reply_comment_total"; "text"; "user.nickname";
   "user.unique_id"; "user.avatar_thumb.url_list"; "share_info.url"].

(** ** [extractors/comments_parser.py] *)

(** [CommentsClient._extract_comments_from_sigi] *)
Definition extract_comments_from_sigi (data : pyval) : result (list pyval) :=
  let comment_dicts :=
    try_or (t1 <- py_get_default data "CommentItem" (PDict []) ;;
            a <- py_get_default t1 "comments" (PList []) ;;
            or_else a
              (t2 <- py_get_default data "Comments" (PDict []) ;;
               b <- py_get_default t2 "comments" (PList []) ;;
               Ok (py_or b (PList []))))
      (PList []) in
  let comment_dicts :=
    match comment_dicts with
    | PDict d => PList (map snd d)
    | _ => comment_dicts
    end in
  items <- py_iter (py_or comment_dicts (PList [])) ;;
  Ok (filter is_dict items).

(** ** [extractors/utils.py]: settings *)

Definition default_user_agent : string :=
  "Mozilla/5.0 (Windows NT 10.0; Win64; x64) "
  ++ "AppleWebKit/537.36 (KHTML, like Gecko) "
  ++ "Chrome/120.0.0.0 Safari/537.36".

(** [cfg.setdefault(k, v)] *)
Definition setdefault (k : string) (v : pyval) (d : pydict) : pydict :=
  match lookup k d with
  | Some _ => d
  | None => (d ++ [(k, v)])%list
  end.

(** [load_settings], given what the file system holds: [None] when the path
    does not exist, the parsed content of the file otherwise; [env_proxy] is
    the proxy the environment names, [None] when it names none. *)
Definition load_settings (file : option pyval) (env_proxy : pyval)
    : result pyval :=
  match file with
  | None =>
      Ok (PDict [("user_agent", PStr default_user_agent);
                 ("timeout_seconds", PInt 15);
                 ("proxy", env_proxy);
                 ("max_items", PInt 100)])
  | Some (PDict cfg) =>
      Ok (PDict (setdefault "max_items" (PInt 100)
                   (setdefault "timeout_seconds" (PInt 15)
                      (setdefault "user_agent" (PStr default_user_agent) cfg))))
  | Some _ => Raise AttributeError
  end.

(** ** [main.py]: the records of one video *)

(** A comprehension [[f(c) for c in l if keep(c)]]: the first exception ends
    it. *)
Fixpoint comprehension {A B : Type} (keep : A -> bool) (f : A -> result B)
    (l : list A) : result (list B) :=
  match l with
  | [] => Ok []
  | c :: l' =>
      if keep c then
        r <- f c ;; rs <- comprehension keep f l' ;; Ok (r :: rs)
      else comprehension keep f l'
  end.

(** [valid_records] of [main], for a validity filter [keep]. *)
Definition valid_records (keep : pyval -> bool) (comments : list pyval)
    (url : string) : result (list pyval) :=
  comprehension keep (fun c => format_comment_record c url) comments.

(** The body of the loop of [main] for one video, once its comments are
    fetched: the records are written together, or an exception is logged and
    nothing is written. *)
Definition process_video (keep : pyval -> bool) (e : exporter)
    (comments : list pyval) (url : string) : exporter :=
  match valid_records keep comments url with
  | Ok records => write_many e records
  | Raise _ => e
  end.

(** The candidate keys [format_comment_record] reads in a raw mapping. *)
Definition candidate_keys : list string :=
  ["author_pin"; "isPinned"; "pinned";
   "aweme_id"; "awemeId"; "video_id"; "videoId";
   "cid"; "comment_id"; "id";
   "comment_language"; "lang"; "language";
   "create_time"; "createTime"; "timestamp";
   "digg_count"; "like_count"; "likes";
   "reply_comment_total"; "reply_count"; "replies";
   "text"; "comment"; "content";
   "user"; "author"; "share_info"].

(** The fields that are made strings, with their candidate keys. *)
Inductive string_field : Type :=
| FAwemeId
| FCid
| FLanguage.

Definition string_out_key (f : string_field) : string :=
  match f with
  | FAwemeId => "aweme_id"
  | FCid => "cid"
  | FLanguage => "comment_language"
  end.

Definition string_keys (f : string_field) : list string :=
  match f with
  | FAwemeId => ["aweme_id"; "awemeId"; "video_id"; "videoId"]
  | FCid => ["cid"; "comment_id"; "id"]
  | FLanguage => ["comment_language"; "lang"; "language"]
  end.

(** Raw comments and users used as examples. *)
Definition number_as_url_list : pydict :=
  [("user", PDict [("avatar_thumb", PDict [("url_list", PInt 5)])])].

Definition string_as_user : pydict := [("text", PStr "hi"); ("user", PStr "bob")].

Definition both_ids : pydict :=
  [("awemeId", PStr "2"); ("aweme_id", PStr "1"); ("cid", PStr "9")].

Definition with_unknown_key : pydict :=
  [("text", PStr "hi"); ("mood", PStr "happy")].

Definition float_count : pydict :=
  [("create_time", PFloat (FFinite false 17 2))].

Definition string_as_url_list : pydict :=
  [("avatar_thumb", PDict [("url_list", PStr "a b")])].

Definition comments_as_mapping : pydict :=
  [("CommentItem",
    PDict [("comments",
            PDict [("1", PDict [("text", PStr "a")]); ("2", PInt 3)])])].

Definition comments_as_number : pydict :=
  [("CommentItem", PDict [("comments", PInt 5)])].

Definition is_float_or_bool (v : pyval) : bool :=
  match v with
  | PFloat _ | PBool _ => true
  | _ => false
  end.

(** The exporter a call returned; an exporter of no format stands for a
    raised exception. *)
Definition returned_exporter (res : result exporter) : exporter :=
  match res with
  | Ok e => e
  | Raise _ => {| ex_format := ""; ex_field_order := []; ex_buffer := [];
                  ex_text := []; ex_rows := [] |}
  end.

(** A character other than the line feed. *)
Definition not_line_feed (c : ascii) : bool :=
  negb (Ascii.eqb (ascii_of_N 10) c).

(** Induction over values, through the lists and the mappings. *)
Section pyval_induction.
Variable P : pyval -> Prop.
Hypothesis HNone : P PNone.
Hypothesis HBool : forall b, P (PBool b).
Hypothesis HInt : forall z, P (PInt z).
Hypothesis HFloat : forall f, P (PFloat f).
Hypothesis HStr : forall s, P (PStr s).
Hypothesis HList : forall l, Forall P l -> P (PList l).
Hypothesis HDict : forall d, Forall (fun kv => P (snd kv)) d -> P (PDict d).

Fixpoint pyval_induction (v : pyval) : P v :=
  match v with
  | PNone => HNone
  | PBool b => HBool b
  | PInt z => HInt z
  | PFloat f => HFloat f
  | PStr s => HStr s
  | PList l =>
      HList l ((fix items (l : list pyval) : Forall P l :=
                  match l with
                  | [] => Forall_nil P
                  | x :: l' => Forall_cons x (pyval_induction x) (items l')
                  end) l)
  | PDict d =>
      HDict d ((fix items (d : list (string * pyval))
                  : Forall (fun kv => P (snd kv)) d :=
                  match d with
                  | [] => Forall_nil _
                  | kv :: d' =>
                      Forall_cons kv (pyval_induction (snd kv)) (items d')
                  end) d)
  end.
End pyval_induction.

(** A comment [format_comment_record] can normalize. *)
Definition normalizable (c : pyval) : bool :=
  match c with
  | PDict d => well_shaped d
  | _ => false
  end.

(** The list [_extract_comments_from_sigi] goes through for a value of
    [comments]: the values of a mapping, the value itself otherwise. *)
Definition values_or_self (c : pyval) : pyval :=
  match c with
  | PDict m => PList (map snd m)
  | _ => c
  end.

(** The defaults [load_settings] fills in. *)
Definition default_setting (k : string) : option pyval :=
  if String.eqb k "user_agent" then Some (PStr default_user_agent)
  else if String.eqb k "timeout_seconds" then Some (PInt 15)
  else if String.eqb k "max_items" then Some (PInt 100)
  else None.

(** * Properties *)

(** ** Strings and digits *)

Lemma eqb_empty_false (s : string) : s <> "" -> String.eqb s "" = false.
Proof. now destruct s. Qed.

Lemma app_cons_nonempty (a : string) (c : ascii) (b : string) :
  (a ++ String c b)%string <> "".
Proof. now destruct a. Qed.

Lemma append_assoc (a b c : string) : (a ++ (b ++ c) = (a ++ b) ++ c)%string.
Proof. induction a as [|x a IH]; simpl; [reflexivity | now rewrite IH]. Qed.

Lemma all_chars_app (p : ascii -> bool) (a b : string) :
  all_chars p (a ++ b) = all_chars p a && all_chars p b.
Proof.
  induction a as [|c a IH]; simpl; [reflexivity|].
  now rewrite IH, andb_assoc.
Qed.

(** A string holding a character outside [p] is not all-[p]. *)
Lemma all_chars_mid (p : ascii -> bool) (a : string) (c : ascii) (b : string) :
  p c = false -> all_chars p (a ++ String c b) = false.
Proof.
  intros H. rewrite all_chars_app. simpl. rewrite H.
  now rewrite andb_false_r.
Qed.

Lemma isdigit_mid (a : string) (c : ascii) (b : string) :
  is_digit_char c = false -> isdigit (a ++ String c b) = false.
Proof.
  intros H. unfold isdigit. rewrite all_chars_mid by exact H.
  apply andb_false_r.
Qed.

Lemma is_decimal_digit (c : ascii) : is_decimal c = true -> is_digit_char c = true.
Proof. unfold is_digit_char. now intros ->. Qed.

Lemma uint_all_decimal (d : uint) :
  all_chars is_decimal (NilEmpty.string_of_uint d) = true.
Proof. induction d; simpl; auto. Qed.

Lemma all_decimal_all_digit (s : string) :
  all_chars is_decimal s = true -> all_chars is_digit_char s = true.
Proof.
  induction s as [|c s IH]; simpl; [reflexivity|].
  intros [Hc Hs]%andb_prop. now rewrite (is_decimal_digit _ Hc), IH.
Qed.

Lemma nilzero_nonempty (d : uint) : NilZero.string_of_uint d <> "".
Proof. destruct d; simpl; discriminate. Qed.

Lemma nilzero_all_decimal (d : uint) :
  all_chars is_decimal (NilZero.string_of_uint d) = true.
Proof.
  destruct d; try reflexivity;
    apply (uint_all_decimal (_ d)).
Qed.

Lemma digits_of_N_isdigit (n : N) : isdigit (digits_of_N n) = true.
Proof.
  unfold isdigit, digits_of_N.
  rewrite eqb_empty_false by apply nilzero_nonempty.
  now rewrite all_decimal_all_digit by apply nilzero_all_decimal.
Qed.

(** [str(z).isdigit()] holds exactly for the non-negative integers. *)
Lemma isdigit_str_of_Z (z : Z) : isdigit (str_of_Z z) = (0 <=? z).
Proof.
  unfold str_of_Z. destruct z as [|p|p]; simpl.
  - reflexivity.
  - change (isdigit (digits_of_N (Npos p)) = true). apply digits_of_N_isdigit.
  - reflexivity.
Qed.

Lemma str_of_Z_nonempty (z : Z) : str_of_Z z <> "".
Proof.
  unfold str_of_Z. destruct z; simpl; try discriminate; apply nilzero_nonempty.
Qed.

(** The [repr] of a float always holds a sign, a point, an exponent mark or
    letters, so [isdigit] rejects it. *)
Lemma float_repr_not_digit (f : pyfloat) : isdigit (float_repr f) = false.
Proof.
  destruct f as [|[|]|neg m decpt]; try reflexivity.
  unfold float_repr.
  set (ds := digits_of_N m). set (n := Z.of_nat (String.length ds)).
  assert (E : forall body, isdigit body = false ->
              isdigit ((if neg then "-" else "") ++ body) = false).
  { intros body Hb. destruct neg; [reflexivity | exact Hb]. }
  apply E.
  destruct ((decpt <=? -4) || (16 <? decpt)).
  - destruct (1 <? n).
    + apply (isdigit_mid (take 1 ds) "."). reflexivity.
    + change (isdigit (take 1 ds ++ "" ++ String "e" (exponent_str (decpt - 1)))
              = false).
      apply (isdigit_mid (take 1 ds) "e"). reflexivity.
  - destruct (decpt <=? 0); [reflexivity|].
    destruct (decpt <? n).
    + apply isdigit_mid. reflexivity.
    + rewrite append_assoc.
      apply (isdigit_mid _ "." "0"). reflexivity.
Qed.

Lemma float_repr_nonempty (f : pyfloat) : float_repr f <> "".
Proof.
  intros E. pose proof (float_repr_not_digit f) as H.
  destruct f as [|[|]|neg m decpt]; try discriminate.
  unfold float_repr in E.
  set (ds := digits_of_N m) in *. set (n := Z.of_nat (String.length ds)) in *.
  destruct neg; [discriminate|]. simpl in E.
  destruct ((decpt <=? -4) || (16 <? decpt)).
  - destruct (1 <? n).
    + now apply (app_cons_nonempty (take 1 ds) ".") in E.
    + now apply (app_cons_nonempty (take 1 ds) "e") in E.
  - destruct (decpt <=? 0); [discriminate|].
    destruct (decpt <? n).
    + now apply app_cons_nonempty in E.
    + rewrite append_assoc in E.
      now apply (app_cons_nonempty _ "." "0") in E.
Qed.

(** [str] of a truthy value is never empty. *)
Lemma py_str_nonempty (v : pyval) : truthy v = true -> py_str v <> "".
Proof.
  destruct v as [|b|z|f|s|l|d]; simpl; intros H; try discriminate.
  - now destruct b.
  - apply str_of_Z_nonempty.
  - apply float_repr_nonempty.
  - intros ->. discriminate.
Qed.

Lemma parse_decimal_all (s : string) :
  forall acc, 0 <= acc ->
  all_chars is_decimal s = true -> exists z, parse_decimal acc s = Some z /\ 0 <= z.
Proof.
  induction s as [|c s IH]; cbn [parse_decimal all_chars]; intros acc Hacc H.
  - now exists acc.
  - apply andb_prop in H as [Hc Hs]. rewrite Hc.
    pose proof (N2Z.is_nonneg (code c - 48)) as Hn.
    apply IH; [lia | exact Hs].
Qed.

Lemma parse_decimal_some (s : string) :
  forall acc z, parse_decimal acc s = Some z -> all_chars is_decimal s = true.
Proof.
  induction s as [|c s IH]; cbn [parse_decimal all_chars]; intros acc z H;
    [reflexivity|].
  destruct (is_decimal c); [|discriminate]. simpl. eauto.
Qed.

(** ** Lookups and [or] chains *)

Lemma get_or_not_dict (o : pyval) (k : string) (ks : list string) :
  is_dict o = false -> get_or o k ks = Raise AttributeError.
Proof. destruct o, ks; simpl; intros H; try reflexivity; discriminate. Qed.

Lemma get_or_default_not_dict o k ks dflt :
  is_dict o = false -> get_or_default o k ks dflt = Raise AttributeError.
Proof. intros H. unfold get_or_default. now rewrite get_or_not_dict. Qed.

(** On a mapping the chain never raises and selects as [first_truthy]. *)
Lemma get_or_dict (d : pydict) (ks : list string) :
  forall k, exists v, get_or (PDict d) k ks = Ok v
                      /\ forall dflt, py_or v dflt = first_truthy d (k :: ks) dflt.
Proof.
  induction ks as [|k' ks IH]; intros k; cbn [get_or py_get bind].
  - eexists; split; [reflexivity|]. intros dflt. unfold py_or. simpl.
    destruct (lookup k d) as [v|]; reflexivity.
  - destruct (IH k') as (w & Hw & Hsel). unfold or_else.
    cbn [first_truthy] in *.
    destruct (lookup k d) as [v|].
    + destruct (truthy v) eqn:Hv.
      * eexists; split; [reflexivity|]. intros. unfold py_or. now rewrite Hv.
      * exists w; split; [exact Hw | exact Hsel].
    + simpl. exists w; split; [exact Hw | exact Hsel].
Qed.

Lemma get_or_default_dict d k ks dflt :
  get_or_default (PDict d) k ks dflt = Ok (first_truthy d (k :: ks) dflt).
Proof.
  unfold get_or_default. destruct (get_or_dict d ks k) as (v & -> & H).
  simpl. now rewrite H.
Qed.

Lemma py_or_falsy_truthy (v : pyval) : truthy (py_or v PNone) = truthy v.
Proof. unfold py_or. destruct (truthy v) eqn:E; [exact E | reflexivity]. Qed.

(** What [first_truthy] returns is truthy or the default. *)
Lemma first_truthy_cases d ks dflt :
  truthy (first_truthy d ks dflt) = true \/ first_truthy d ks dflt = dflt.
Proof.
  induction ks as [|k ks IH]; simpl; [now right|].
  destruct (lookup k d) as [v|]; [|exact IH].
  destruct (truthy v) eqn:E; [now left | exact IH].
Qed.

(** ** Numeric coercion *)

Lemma int_or_zero_int (z : Z) :
  int_or_zero (PInt z) = Ok (PInt (if 0 <=? z then z else 0)).
Proof.
  unfold int_or_zero. simpl. rewrite isdigit_str_of_Z. now destruct (0 <=? z).
Qed.

Lemma int_or_zero_float (f : pyfloat) : int_or_zero (PFloat f) = Ok (PInt 0).
Proof.
  unfold int_or_zero. cbn [is_int_float_str py_str py_repr andb].
  now rewrite float_repr_not_digit.
Qed.

Lemma int_or_zero_bool (b : bool) : int_or_zero (PBool b) = Ok (PInt 0).
Proof. now destruct b. Qed.

Lemma int_or_zero_not_digit (s : string) :
  isdigit s = false -> int_or_zero (PStr s) = Ok (PInt 0).
Proof. intros H. unfold int_or_zero. simpl. now rewrite H. Qed.

(** Whatever [int_or_zero] returns is a non-negative integer. *)
Lemma int_or_zero_nonneg (v r : pyval) :
  int_or_zero v = Ok r -> exists n, r = PInt n /\ 0 <= n.
Proof.
  destruct v as [|b|z|f|s|l|d].
  - intros [= <-]. exists 0. split; [reflexivity | lia].
  - rewrite int_or_zero_bool. intros [= <-]. exists 0. split; [reflexivity|lia].
  - rewrite int_or_zero_int. intros [= <-]. eexists. split; [reflexivity|].
    destruct (0 <=? z) eqn:E; lia.
  - rewrite int_or_zero_float. intros [= <-]. exists 0. split; [reflexivity|lia].
  - unfold int_or_zero. cbn [is_int_float_str py_str andb].
    destruct (isdigit s) eqn:Hd.
    + cbn [py_int]. destruct s as [|c s]; [discriminate|].
      destruct (parse_decimal 0 (String c s)) as [z|] eqn:Hp; [|discriminate].
      intros [= <-]. exists z. split; [reflexivity|].
      pose proof (parse_decimal_some _ _ _ Hp) as Hall.
      destruct (parse_decimal_all _ 0 ltac:(lia) Hall) as (z' & Hz' & Hpos).
      congruence.
    + intros [= <-]. exists 0. split; [reflexivity|lia].
  - intros [= <-]. exists 0. split; [reflexivity | lia].
  - intros [= <-]. exists 0. split; [reflexivity | lia].
Qed.

(** [int_or_zero] returns on every coercible value. *)
Lemma int_or_zero_coercible (v : pyval) :
  coercible v = true -> exists n, int_or_zero v = Ok (PInt n).
Proof.
  destruct v as [|b|z|f|s|l|d]; intros H.
  - now exists 0.
  - exists 0. apply int_or_zero_bool.
  - eexists. apply int_or_zero_int.
  - exists 0. apply int_or_zero_float.
  - cbn [coercible] in H. unfold int_or_zero. cbn [is_int_float_str py_str andb].
    destruct (isdigit s) eqn:Hd; [|now exists 0].
    cbn [negb orb] in H.
    destruct (parse_decimal_all s 0 ltac:(lia) H) as (z & Hz & _).
    exists z. cbn [py_int]. destruct s; [discriminate|]. now rewrite Hz.
  - now exists 0.
  - now exists 0.
Qed.

(** A string [isdigit] accepts and [int] rejects makes the coercion raise. *)
Lemma int_or_zero_raises (v : pyval) :
  coercible v = false -> int_or_zero v = Raise ValueError.
Proof.
  destruct v as [|b|z|f|s|l|d]; try discriminate. cbn [coercible].
  intros H. apply orb_false_elim in H as [Hd Hall].
  apply negb_false_iff in Hd.
  unfold int_or_zero. cbn [is_int_float_str py_str andb]. rewrite Hd.
  cbn [py_int]. destruct s as [|c s]; [discriminate|].
  destruct (parse_decimal 0 (String c s)) as [z|] eqn:Hp; [|reflexivity].
  apply parse_decimal_some in Hp. congruence.
Qed.

(** A canonical count coerces to itself. *)
Lemma int_or_zero_fix (n : Z) :
  0 <= n -> int_or_zero (py_or (PInt n) (PInt 0)) = Ok (PInt n).
Proof.
  intros H. unfold py_or. simpl. destruct (n =? 0) eqn:E; simpl.
  - apply Z.eqb_eq in E. now subst.
  - rewrite int_or_zero_int. destruct (0 <=? n) eqn:L; [reflexivity | lia].
Qed.

(** ** Stripping *)

Lemma rstrip_cons_keep (c : ascii) (s : string) :
  is_space c = false -> rstrip (String c s) = String c (rstrip s).
Proof. intros H. simpl. rewrite H. now destruct (rstrip s). Qed.

Lemma rstrip_idem (s : string) : rstrip (rstrip s) = rstrip s.
Proof.
  induction s as [|c s IH]; [reflexivity|].
  cbn [rstrip]. destruct (rstrip s) as [|c' r] eqn:E.
  - destruct (is_space c) eqn:Hc; [reflexivity|]. simpl. now rewrite Hc.
  - assert (H : rstrip (String c (String c' r)) =
                match rstrip (String c' r) with
                | EmptyString =>
                    if is_space c then EmptyString else String c EmptyString
                | x => String c x
                end) by reflexivity.
    rewrite H, IH. reflexivity.
Qed.

Lemma lstrip_head (s : string) :
  lstrip s = "" \/ exists c r, lstrip s = String c r /\ is_space c = false.
Proof.
  induction s as [|c s IH]; [now left|]. simpl.
  destruct (is_space c) eqn:Hc; [exact IH|]. right. now exists c, s.
Qed.

Lemma lstrip_strip (s : string) : lstrip (strip s) = strip s.
Proof.
  unfold strip. destruct (lstrip_head s) as [-> | (c & r & -> & Hc)];
    [reflexivity|].
  rewrite rstrip_cons_keep by exact Hc. simpl. now rewrite Hc.
Qed.

Lemma strip_idem (s : string) : strip (strip s) = strip s.
Proof.
  unfold strip at 1. rewrite lstrip_strip. unfold strip. apply rstrip_idem.
Qed.

(** ** The avatar list *)

Lemma filter_idem {A : Type} (f : A -> bool) (l : list A) :
  filter f (filter f l) = filter f l.
Proof.
  induction l as [|x l IH]; simpl; [reflexivity|].
  destruct (f x) eqn:E; simpl; [now rewrite E, IH | exact IH].
Qed.

(** Each guarded lookup of a nested path yields the value at the path when
    it is truthy, and the empty list otherwise. *)
Lemma nested_path (u : pydict) (k1 k2 : string) :
  try_or (t <- py_get_default (PDict u) k1 (PDict []) ;;
          x <- py_get t k2 ;;
          Ok (py_or x (PList []))) (PList [])
  = py_or (nested u k1 k2) (PList []).
Proof.
  unfold nested. cbn [py_get_default bind].
  destruct (lookup k1 u) as [[| | | | | |t]|]; try reflexivity.
Qed.

(** The container the final comprehension iterates over. *)
Lemma avatar_candidate_dict (u : pydict) :
  avatar_candidate (PDict u) =
  Ok (if truthy (nested u "avatar_thumb" "url_list")
      then nested u "avatar_thumb" "url_list"
      else if truthy (nested u "avatarThumb" "urlList")
      then nested u "avatarThumb" "urlList"
      else match single_avatar u with
           | PStr s => if truthy (PStr (strip s)) then PList [PStr (strip s)]
                       else PList []
           | _ => PList []
           end).
Proof.
  unfold avatar_candidate. cbv zeta.
  rewrite (nested_path u "avatar_thumb" "url_list").
  set (a := nested u "avatar_thumb" "url_list").
  set (b := nested u "avatarThumb" "urlList").
  destruct (truthy a) eqn:Ha.
  - assert (Ea : py_or a (PList []) = a) by (unfold py_or; now rewrite Ha).
    rewrite Ea, Ha. cbn [negb]. rewrite Ha. reflexivity.
  - assert (Ea : py_or a (PList []) = PList [])
      by (unfold py_or; now rewrite Ha).
    rewrite Ea. cbn [truthy negb].
    rewrite (nested_path u "avatarThumb" "urlList"). fold b.
    destruct (truthy b) eqn:Hb.
    + assert (Eb : py_or b (PList []) = b) by (unfold py_or; now rewrite Hb).
      rewrite Eb, Hb. reflexivity.
    + assert (Eb : py_or b (PList []) = PList [])
        by (unfold py_or; now rewrite Hb).
      rewrite Eb. cbn [truthy negb].
      cbn [py_get bind]. unfold or_else, single_avatar. cbn [first_truthy].
      destruct (lookup "avatar" u) as [v|].
      * destruct (truthy v) eqn:Hv; cbn [bind].
        -- destruct v as [| | | |s| |]; try reflexivity.
           cbn [truthy]. now destruct (negb (strip s =? "")%string).
        -- destruct (lookup "avatarUrl" u) as [[| | | |[|c s]| |]|];
             cbn [truthy String.eqb negb bind];
             try reflexivity;
             repeat match goal with
                    | |- context [if ?c then _ else _] => destruct c
                    end; reflexivity.
      * cbn [truthy bind].
        destruct (lookup "avatarUrl" u) as [[| | | |[|c s]| |]|];
             cbn [truthy String.eqb negb bind];
          try reflexivity;
          repeat match goal with
                 | |- context [if ?c then _ else _] => destruct c
                 end; reflexivity.
Qed.

Lemma normalize_avatar_urls_dict (u : pydict) :
  normalize_avatar_urls (PDict u) =
  c <- avatar_candidate (PDict u) ;;
  items <- py_iter c ;;
  Ok (PList (filter keep_url items)).
Proof. reflexivity. Qed.

(** Whatever [normalize_avatar_urls] returns is a list of strings that are
    not blank, and filtering it again changes nothing. *)
Lemma normalize_avatar_urls_kept (user r : pyval) :
  normalize_avatar_urls user = Ok r ->
  exists l, r = PList l /\ filter keep_url l = l.
Proof.
  unfold normalize_avatar_urls. destruct (negb (is_dict user)).
  - intros [= <-]. now exists [].
  - destruct (avatar_candidate user) as [c|]; [|discriminate]. cbn [bind].
    destruct (py_iter c) as [items|]; [|discriminate]. cbn [bind].
    intros [= <-]. eexists. split; [reflexivity | apply filter_idem].
Qed.

Lemma build_user_block_dict (u : pydict) :
  build_user_block (PDict u) =
  urls <- normalize_avatar_urls (PDict u) ;;
  Ok (PDict [("nickname",
              first_truthy u ["nickname"; "nicknameName"; "display_name";
                              "displayName"] (PStr ""));
             ("unique_id",
              first_truthy u ["unique_id"; "uniqueId"; "username"; "uid"]
                (PStr ""));
             ("avatar_thumb", PDict [("url_list", urls)])]).
Proof.
  unfold build_user_block. rewrite !get_or_default_dict. reflexivity.
Qed.

Lemma build_user_block_not_dict (user : pyval) :
  is_dict user = false -> build_user_block user = Raise AttributeError.
Proof.
  intros H. unfold build_user_block. now rewrite get_or_default_not_dict.
Qed.

(** The shape of every user block. *)
Lemma build_user_block_shape (user blk : pyval) :
  build_user_block user = Ok blk ->
  exists nn uid l,
    blk = user_block nn uid l
    /\ (truthy nn = true \/ nn = PStr "")
    /\ (truthy uid = true \/ uid = PStr "")
    /\ filter keep_url l = l.
Proof.
  destruct user as [| | | | | |u];
    try (rewrite build_user_block_not_dict by reflexivity; discriminate).
  rewrite build_user_block_dict.
  destruct (normalize_avatar_urls (PDict u)) as [r|] eqn:E; [|discriminate].
  destruct (normalize_avatar_urls_kept _ _ E) as (l & -> & Hl).
  cbn [bind]. intros H.
  exists (first_truthy u ["nickname"; "nicknameName"; "display_name";
                          "displayName"] (PStr "")),
         (first_truthy u ["unique_id"; "uniqueId"; "username"; "uid"] (PStr "")),
         l.
  split; [unfold user_block; congruence|].
  split; [apply first_truthy_cases|]. split; [apply first_truthy_cases|].
  exact Hl.
Qed.

(** A user block is mapped to itself. *)
Lemma build_user_block_canonical (nn uid : pyval) (l : list pyval) :
  (truthy nn = true \/ nn = PStr "") ->
  (truthy uid = true \/ uid = PStr "") ->
  filter keep_url l = l ->
  build_user_block (user_block nn uid l) = Ok (user_block nn uid l).
Proof.
  intros Hn Hu Hl. unfold user_block. rewrite build_user_block_dict.
  rewrite normalize_avatar_urls_dict, avatar_candidate_dict.
  assert (En : first_truthy
                 [("nickname", nn); ("unique_id", uid);
                  ("avatar_thumb", PDict [("url_list", PList l)])]
                 ["nickname"; "nicknameName"; "display_name"; "displayName"]
                 (PStr "") = nn).
  { cbn. destruct Hn as [-> | ->]; reflexivity. }
  assert (Eu : first_truthy
                 [("nickname", nn); ("unique_id", uid);
                  ("avatar_thumb", PDict [("url_list", PList l)])]
                 ["unique_id"; "uniqueId"; "username"; "uid"]
                 (PStr "") = uid).
  { cbn. destruct Hu as [-> | ->]; reflexivity. }
  rewrite En, Eu. clear En Eu.
  change (nested _ "avatar_thumb" "url_list") with (PList l).
  change (nested _ "avatarThumb" "urlList") with PNone.
  destruct l as [|x l].
  - reflexivity.
  - cbn [truthy py_iter bind]. now rewrite Hl.
Qed.

(** ** The comment record *)

Lemma format_not_dict (raw : pyval) (source_url : string) :
  is_dict raw = false -> format_comment_record raw source_url = Raise AttributeError.
Proof.
  intros H. unfold format_comment_record. now rewrite get_or_not_dict.
Qed.

(** On a mapping only the user block and the three coercions can raise; the
    record is built from the resolved values. *)
Lemma format_dict (d : pydict) (source_url : string) :
  format_comment_record (PDict d) source_url =
  ub <- build_user_block (resolved_user d) ;;
  ct <- int_or_zero (resolved_create_time d) ;;
  dg <- int_or_zero (resolved_digg d) ;;
  rp <- int_or_zero (resolved_replies d) ;;
  Ok (record (PBool (truthy (resolved_pin d)))
        (str_or_empty (resolved_aweme_id d))
        (str_or_empty (resolved_cid d))
        (str_or_empty (resolved_lang d))
        ct dg rp (resolved_text d) ub (share_url_of d source_url)).
Proof.
  unfold format_comment_record.
  destruct (get_or_dict d ["isPinned"; "pinned"] "author_pin") as (pin & -> & Hpin).
  cbn [bind]. rewrite !get_or_default_dict. cbn [bind].
  fold (resolved_user d) (resolved_aweme_id d) (resolved_cid d)
       (resolved_lang d) (resolved_create_time d) (resolved_digg d)
       (resolved_replies d) (resolved_text d).
  destruct (build_user_block (resolved_user d)) as [ub|]; [|reflexivity].
  cbn [bind].
  assert (Es : (if is_dict (first_truthy d ["share_info"] (PDict []))
                then get_or_default (first_truthy d ["share_info"] (PDict []))
                       "url" [] (PStr "")
                else Ok (PStr "")) = Ok (resolved_share_url d)).
  { unfold resolved_share_url.
    destruct (first_truthy d ["share_info"] (PDict [])); try reflexivity.
    cbn [is_dict]. apply get_or_default_dict. }
  rewrite Es. cbn [bind].
  assert (Ep : PBool (truthy (PBool (truthy pin)))
               = PBool (truthy (resolved_pin d))).
  { unfold resolved_pin. rewrite <- Hpin, py_or_falsy_truthy. reflexivity. }
  rewrite Ep. reflexivity.
Qed.

(** Every record the normalizer returns. *)
Lemma format_inv (d : pydict) (source_url : string) (r : pyval) :
  format_comment_record (PDict d) source_url = Ok r ->
  exists ub ct dg rp,
    build_user_block (resolved_user d) = Ok ub
    /\ int_or_zero (resolved_create_time d) = Ok (PInt ct) /\ 0 <= ct
    /\ int_or_zero (resolved_digg d) = Ok (PInt dg) /\ 0 <= dg
    /\ int_or_zero (resolved_replies d) = Ok (PInt rp) /\ 0 <= rp
    /\ r = record (PBool (truthy (resolved_pin d)))
              (str_or_empty (resolved_aweme_id d))
              (str_or_empty (resolved_cid d))
              (str_or_empty (resolved_lang d))
              (PInt ct) (PInt dg) (PInt rp) (resolved_text d) ub
              (share_url_of d source_url).
Proof.
  rewrite format_dict.
  destruct (build_user_block (resolved_user d)) as [ub|]; [|discriminate].
  cbn [bind].
  destruct (int_or_zero (resolved_create_time d)) as [ct|] eqn:Ect;
    [|discriminate].
  destruct (int_or_zero (resolved_digg d)) as [dg|] eqn:Edg; [|discriminate].
  destruct (int_or_zero (resolved_replies d)) as [rp|] eqn:Erp; [|discriminate].
  cbn [bind]. intros H.
  destruct (int_or_zero_nonneg _ _ Ect) as (ct' & -> & Hct).
  destruct (int_or_zero_nonneg _ _ Edg) as (dg' & -> & Hdg).
  destruct (int_or_zero_nonneg _ _ Erp) as (rp' & -> & Hrp).
  exists ub, ct', dg', rp'. repeat split; try assumption; try reflexivity.
  congruence.
Qed.

Lemma first_truthy_not_none d ks dflt :
  dflt <> PNone -> first_truthy d ks dflt <> PNone.
Proof.
  intros Hd. destruct (first_truthy_cases d ks dflt) as [H | ->]; [|exact Hd].
  intros E. rewrite E in H. discriminate.
Qed.


Lemma build_user_block_returns (u : pydict) :
  avatar_iterable (PDict u) = true ->
  exists blk, build_user_block (PDict u) = Ok blk /\ blk <> PNone.
Proof.
  unfold avatar_iterable. rewrite build_user_block_dict.
  rewrite normalize_avatar_urls_dict.
  destruct (avatar_candidate (PDict u)) as [c|]; [|discriminate].
  intros Hc. cbn [bind].
  destruct c; try discriminate; cbn [py_iter bind];
    eexists; (split; [reflexivity | discriminate]).
Qed.

(** Outside the well-shaped mappings the normalizer raises. *)
Lemma format_raises_unless_well_shaped (d : pydict) (source_url : string) :
  well_shaped d = false ->
  exists e, format_comment_record (PDict d) source_url = Raise e.
Proof.
  unfold well_shaped. intros H. rewrite format_dict.
  destruct (is_dict (resolved_user d)) eqn:Hu.
  2:{ rewrite build_user_block_not_dict by exact Hu. now eexists. }
  destruct (avatar_iterable (resolved_user d)) eqn:Ha.
  2:{ destruct (resolved_user d) as [| | | | | |u]; try discriminate.
      rewrite build_user_block_dict, normalize_avatar_urls_dict.
      unfold avatar_iterable in Ha. rewrite avatar_candidate_dict in *.
      cbn [bind].
      match goal with
      | |- context [py_iter ?c] => destruct c; try discriminate
      end; cbn [py_iter bind]; now eexists. }
  destruct (resolved_user d) as [| | | | | |u]; try discriminate.
  destruct (build_user_block_returns u Ha) as (blk & -> & _). cbn [bind].
  cbn [andb] in H.
  destruct (coercible (resolved_create_time d)) eqn:H1.
  2:{ rewrite (int_or_zero_raises _ H1). now eexists. }
  destruct (int_or_zero_coercible _ H1) as (n1 & ->). cbn [bind].
  destruct (coercible (resolved_digg d)) eqn:H2.
  2:{ rewrite (int_or_zero_raises _ H2). now eexists. }
  destruct (int_or_zero_coercible _ H2) as (n2 & ->). cbn [bind].
  cbn [andb] in H. rewrite (int_or_zero_raises _ H). now eexists.
Qed.

(** ** Totality, candidate selection and coercion *)




Lemma first_truthy_skip (d : pydict) (k : string) (ks : list string)
    (dflt v0 : pyval) :
  lookup k d = Some v0 -> truthy v0 = false ->
  first_truthy d (k :: ks) dflt = first_truthy d ks dflt.
Proof. intros Hk Hv. cbn [first_truthy]. now rewrite Hk, Hv. Qed.

(** C2, as stated, fails: with [create_time] holding a literal 0 and
    [createTime] holding 5, the canonical [create_time] is 5, not 0. *)
Lemma C2_zero_is_skipped :
  result_field "create_time"
    (format_comment_record (PDict zero_then_five) "https://tiktok.com/x")
  = Some (PInt 5)
  /\ result_field "create_time"
       (format_comment_record (PDict zero_then_five) "https://tiktok.com/x")
     <> Some (PInt 0).
Proof. split; [reflexivity | discriminate]. Qed.

(** C2, amended: the numeric and boolean fields are resolved by the same
    [or] chain as the others.  When the first candidate key of [author_pin],
    [create_time], [digg_count] or [reply_comment_total] holds a falsy value
    such as a literal 0 or false, that key is skipped like an absent one: the
    canonical value is the coercion of the first truthy value among the later
    candidate keys, or of the default when there is none. *)
Theorem C2_falsy_first_candidate_skipped (f : zero_field) (d : pydict)
    (source_url : string) (r v0 : pyval) :
  format_comment_record (PDict d) source_url = Ok r ->
  lookup (first_key f) d = Some v0 ->
  truthy v0 = false ->
  exists x, coerce f (first_truthy d (later_keys f) (default_of f)) = Ok x
            /\ field (out_key f) r = Some x.
Proof.
  intros H Hk Hv.
  destruct (format_inv _ _ _ H)
    as (ub & ct & dg & rp & _ & Hct & _ & Hdg & _ & Hrp & _ & ->).
  destruct f; cbn [coerce first_key later_keys default_of out_key] in *.
  - eexists. split; [reflexivity|]. unfold resolved_pin.
    now rewrite (first_truthy_skip _ _ _ _ _ Hk Hv).
  - unfold resolved_create_time in Hct.
    rewrite (first_truthy_skip _ _ _ _ _ Hk Hv) in Hct.
    eexists. split; [exact Hct | reflexivity].
  - unfold resolved_digg in Hdg.
    rewrite (first_truthy_skip _ _ _ _ _ Hk Hv) in Hdg.
    eexists. split; [exact Hdg | reflexivity].
  - unfold resolved_replies in Hrp.
    rewrite (first_truthy_skip _ _ _ _ _ Hk Hv) in Hrp.
    eexists. split; [exact Hrp | reflexivity].
Qed.

Lemma C2_falsy_first_candidate_skipped_witness :
  exists x,
    coerce FCreateTime
      (first_truthy zero_then_five (later_keys FCreateTime)
         (default_of FCreateTime)) = Ok x
    /\ field (out_key FCreateTime)
         (returned (format_comment_record (PDict zero_then_five)
                      "https://tiktok.com/x")) = Some x.
Proof.
  apply (C2_falsy_first_candidate_skipped FCreateTime zero_then_five
           "https://tiktok.com/x" _ (PInt 0)); reflexivity.
Defined.

(** C3, as stated, fails: a first candidate that is a non-empty list with no
    usable string in it is still the one selected, so nothing falls through
    to the camel-case list and the result is empty. *)
Lemma C3_no_fall_through_after_filtering :
  normalize_avatar_urls (PDict blank_then_url) = Ok (PList [])
  /\ normalize_avatar_urls (PDict number_then_url) = Ok (PList [])
  /\ normalize_avatar_urls (PDict blank_then_url)
     <> Ok (PList [PStr "http://y/b.jpg"]).
Proof. repeat split; try reflexivity. discriminate. Qed.

Lemma normalize_selected (u : pydict) :
  normalize_avatar_urls (PDict u) =
  items <- py_iter (selected_avatar u) ;;
  Ok (PList (filter keep_url items)).
Proof.
  rewrite normalize_avatar_urls_dict, avatar_candidate_dict. reflexivity.
Qed.

(** C3, amended: for every user mapping the candidates are tried in the order
    [avatar_thumb.url_list], [avatarThumb.urlList], single string at
    [avatar]/[avatarUrl]; the first candidate that is non-empty as given is
    selected, a later one being tried only when the earlier ones are absent
    or empty, and only the selected candidate is filtered down to its
    non-blank strings.  The single string is trimmed.  A first list holding
    only an empty string or a number therefore gives the empty list, an empty
    first list falls through to the camel-case list, and when every candidate
    is absent the result is the empty list. *)
Theorem C3_first_non_empty_candidate_then_filter :
  (forall u : pydict,
      normalize_avatar_urls (PDict u) =
      items <- py_iter (selected_avatar u) ;;
      Ok (PList (filter keep_url items)))
  /\ normalize_avatar_urls (PDict blank_then_url) = Ok (PList [])
  /\ normalize_avatar_urls (PDict number_then_url) = Ok (PList [])
  /\ normalize_avatar_urls (PDict empty_then_url)
     = Ok (PList [PStr "http://y/b.jpg"])
  /\ normalize_avatar_urls (PDict [("avatar", PStr "  http://x/a.jpg  ")])
     = Ok (PList [PStr "http://x/a.jpg"])
  /\ normalize_avatar_urls (PDict []) = Ok (PList []).
Proof.
  split; [exact normalize_selected | repeat split; reflexivity].
Qed.

Lemma keep_url_not_blank (e : pyval) : keep_url e = true -> not_blank e.
Proof.
  destruct e as [| | | |s| |]; try discriminate. cbn [keep_url truthy].
  intros H. exists s. split; [reflexivity|]. intros E. rewrite E in H.
  discriminate.
Qed.

Lemma filter_fix_Forall (l : list pyval) :
  filter keep_url l = l -> Forall not_blank l.
Proof.
  intros H. apply Forall_forall. intros e He. rewrite <- H in He.
  apply filter_In in He as [_ He]. now apply keep_url_not_blank.
Qed.

(** C4: the code departs from the claim on the list paths.  The single
    string of [avatar] is stored trimmed, but an element of
    [avatar_thumb.url_list] passes the test on its trimmed form and is kept
    with its surrounding blanks: the same URL comes out trimmed on one path
    and untrimmed on the other. *)
Theorem C4_list_elements_not_trimmed :
  result_path ["avatar_thumb"; "url_list"] (build_user_block (PDict padded_url))
  = Some (PList [PStr "  http://x/a.jpg  "])
  /\ trimmed "  http://x/a.jpg  " = false
  /\ result_path ["avatar_thumb"; "url_list"]
       (build_user_block (PDict [("avatar", PStr "  http://x/a.jpg  ")]))
     = Some (PList [PStr "http://x/a.jpg"]).
Proof. repeat split; reflexivity. Qed.

(** What the final comprehension does ensure: in every user block produced,
    every element of the avatar URL list is a string that is not empty once
    trimmed. *)
Lemma avatar_urls_not_blank (user blk : pyval) :
  build_user_block user = Ok blk ->
  exists l, path ["avatar_thumb"; "url_list"] blk = Some (PList l)
            /\ Forall not_blank l.
Proof.
  intros H. destruct (build_user_block_shape _ _ H) as (nn & uid & l & -> & _ & _ & Hl).
  exists l. split; [reflexivity | now apply filter_fix_Forall].
Qed.

Example avatar_urls_not_blank_padded :
  exists l, path ["avatar_thumb"; "url_list"]
              (returned (build_user_block (PDict padded_url))) = Some (PList l)
            /\ Forall not_blank l.
Proof.
  apply (avatar_urls_not_blank (PDict padded_url)). reflexivity.
Defined.

(** C5: the code departs from the claim on a string that [isdigit] accepts
    and [int] rejects.  With [create_time] holding the superscript two, the
    guard passes, [int] raises [ValueError], and no record is produced where
    the claim expects [create_time] to be 0. *)
Theorem C5_superscript_digit_raises :
  isdigit sup2 = true
  /\ py_int (PStr sup2) = Raise ValueError
  /\ format_comment_record (PDict [("create_time", PStr sup2)])
       "https://tiktok.com/x" = Raise ValueError.
Proof. repeat split; reflexivity. Qed.

(** The four coercion examples of the specification do hold. *)
Example create_time_digit_string :
  result_field "create_time"
    (format_comment_record (PDict [("create_time", PStr "12345")]) "u")
  = Some (PInt 12345).
Proof. reflexivity. Qed.

Example create_time_mixed_string :
  result_field "create_time"
    (format_comment_record (PDict [("create_time", PStr "12a45")]) "u")
  = Some (PInt 0).
Proof. reflexivity. Qed.

Example create_time_negative :
  result_field "create_time"
    (format_comment_record (PDict [("create_time", PInt (-5))]) "u")
  = Some (PInt 0).
Proof. reflexivity. Qed.

Example create_time_absent :
  result_field "create_time" (format_comment_record (PDict []) "u")
  = Some (PInt 0).
Proof. reflexivity. Qed.

(** Away from the superscript digits the policy of the claim holds: a count
    is the integer itself when it is a non-negative [int], the number read
    when it is a string of decimal digits, and 0 otherwise; no float passes. *)
Lemma int_or_zero_policy (v : pyval) :
  coercible v = true ->
  exists n, int_or_zero v = Ok (PInt n) /\ 0 <= n
            /\ (n <> 0 ->
                (exists z, v = PInt z /\ z = n)
                \/ (exists s, v = PStr s /\ all_chars is_decimal s = true)).
Proof.
  intros H. destruct (int_or_zero_coercible v H) as (n & Hn).
  destruct (int_or_zero_nonneg _ _ Hn) as (n' & [= <-] & Hpos).
  exists n. split; [exact Hn|]. split; [exact Hpos|]. intros Hnz.
  destruct v as [|b|z|f|s|l|d]; try (cbn in Hn; congruence).
  - rewrite int_or_zero_bool in Hn. congruence.
  - left. exists z. split; [reflexivity|]. rewrite int_or_zero_int in Hn.
    destruct (0 <=? z); congruence.
  - rewrite int_or_zero_float in Hn. congruence.
  - right. exists s. split; [reflexivity|]. cbn [coercible] in H.
    destruct (isdigit s) eqn:Hd; [exact H|].
    rewrite (int_or_zero_not_digit _ Hd) in Hn. congruence.
Qed.

(** ** The share URL *)

(** The URL taken from the raw mapping is the value at [share_info.url] when
    that value is truthy, and is empty otherwise. *)
Lemma resolved_share_url_nested (d : pydict) :
  resolved_share_url d =
  if truthy (nested d "share_info" "url") then nested d "share_info" "url"
  else PStr "".
Proof.
  unfold resolved_share_url, nested. cbn [first_truthy].
  destruct (lookup "share_info" d) as [[| | | | | |sd]|]; try reflexivity;
    cbn [truthy].
  - now destruct b.
  - now destruct (negb (z =? 0)).
  - destruct f as [|neg|neg m e]; try reflexivity.
    cbn [truthy]. now destruct (negb (m =? 0)%N).
  - now destruct (negb (s =? "")%string).
  - now destruct l.
  - destruct sd as [|kv sd]; [reflexivity|].
    destruct (lookup "url" (kv :: sd)) as [v|]; [|reflexivity].
    now destruct (truthy v).
Qed.

Lemma truthy_str_or_empty (v : pyval) : truthy (str_or_empty v) = truthy v.
Proof.
  unfold str_or_empty. destruct (truthy v) eqn:E; [|reflexivity].
  cbn [truthy]. now rewrite eqb_empty_false by now apply py_str_nonempty.
Qed.

Lemma str_or_empty_truthy (v : pyval) :
  truthy v = true -> str_or_empty v = PStr (py_str v).
Proof. intros H. unfold str_or_empty. now rewrite H. Qed.

(** How the share URL of a record is chosen. *)
Lemma share_url_cases (d : pydict) (source_url : string) (r : pyval) :
  format_comment_record (PDict d) source_url = Ok r ->
  exists a c,
    field "aweme_id" r = Some (PStr a)
    /\ field "cid" r = Some (PStr c)
    /\ path ["share_info"; "url"] r =
       Some (if truthy (nested d "share_info" "url")
             then nested d "share_info" "url"
             else if negb (String.eqb a "") && negb (String.eqb c "")
             then PStr (deep_link a c)
             else PStr source_url).
Proof.
  intros H.
  destruct (format_inv _ _ _ H) as (ub & ct & dg & rp & _ & _ & _ & _ & _ & _ & _ & ->).
  do 2 eexists. split; [reflexivity|]. split; [reflexivity|].
  cbn [path field record lookup String.eqb Ascii.eqb Bool.eqb].
  f_equal. unfold share_url_of. rewrite resolved_share_url_nested.
  change (negb ((if truthy (resolved_aweme_id d)
                 then py_str (resolved_aweme_id d) else "") =? "")%string)
    with (truthy (str_or_empty (resolved_aweme_id d))).
  change (negb ((if truthy (resolved_cid d)
                 then py_str (resolved_cid d) else "") =? "")%string)
    with (truthy (str_or_empty (resolved_cid d))).
  rewrite !truthy_str_or_empty. unfold py_or, build_share_url_fallback.
  destruct (truthy (nested d "share_info" "url")) eqn:Hs.
  - now rewrite Hs.
  - cbn [truthy String.eqb negb].
    destruct (truthy (resolved_aweme_id d)) eqn:Ha;
      destruct (truthy (resolved_cid d)) eqn:Hc; cbn [andb];
      try reflexivity; cbn [truthy]; now destruct source_url.
Qed.




(** The share URL example of the specification. *)
Example share_url_synthesis :
  result_path ["share_info"; "url"]
    (format_comment_record (PDict ids_only) "https://tiktok.com/x")
  = Some (PStr "https://m.tiktok.com/v/123.html?share_comment_id=456").
Proof. reflexivity. Qed.

(** C7, as stated, fails: with an empty source URL, no [share_info] and no
    ids, the share URL of the record is the empty string. *)
Lemma C7_share_url_can_be_empty :
  result_path ["share_info"; "url"] (format_comment_record (PDict text_only) "")
  = Some (PStr "").
Proof. reflexivity. Qed.

(** C7, amended: in every record produced from a raw mapping with a non-empty
    source URL, the share URL is non-empty; it is a non-empty string unless
    the raw [share_info.url] holds a truthy value that is not a string, which
    is passed through as it is. *)
Theorem C7_share_url_non_empty (d : pydict) (source_url : string) (r : pyval) :
  format_comment_record (PDict d) source_url = Ok r ->
  String.eqb source_url "" = false ->
  exists v, path ["share_info"; "url"] r = Some v
            /\ truthy v = true
            /\ (is_str (nested d "share_info" "url") = true
                \/ truthy (nested d "share_info" "url") = false ->
                exists s, v = PStr s /\ s <> "").
Proof.
  intros H Hsrc.
  destruct (share_url_cases d source_url r H) as (a & c & _ & _ & Hurl).
  rewrite Hurl. eexists. split; [reflexivity|].
  destruct (truthy (nested d "share_info" "url")) eqn:Hs.
  - split; [exact Hs|]. intros [Hstr | Hf]; [|discriminate].
    destruct (nested d "share_info" "url") as [| | | |s| |]; try discriminate.
    exists s. split; [reflexivity|]. intros ->. discriminate.
  - destruct (negb (a =? "")%string && negb (c =? "")%string).
    + split; [reflexivity|]. intros _. eexists. split; [reflexivity|].
      unfold deep_link. discriminate.
    + split; [cbn [truthy]; now rewrite Hsrc|].
      intros _. exists source_url. split; [reflexivity|].
      intros ->. discriminate.
Qed.

Lemma C7_share_url_non_empty_witness :
  exists v,
    path ["share_info"; "url"]
      (returned (format_comment_record (PDict text_only) "https://tiktok.com/x"))
    = Some v
    /\ truthy v = true
    /\ (is_str (nested text_only "share_info" "url") = true
        \/ truthy (nested text_only "share_info" "url") = false ->
        exists s, v = PStr s /\ s <> "").
Proof.
  apply (C7_share_url_non_empty text_only "https://tiktok.com/x"); reflexivity.
Defined.

(** ** The validity filter *)

(** C8: [is_comment_like] accepts exactly the mappings in which one of the
    keys [text], [comment], [content], [cid], [comment_id], [id] is present
    with a non-empty value; the five examples of the specification come out
    as stated. *)
Theorem C8_is_comment_like_spec :
  (forall raw : pyval,
      is_comment_like raw = true <->
      exists d k v, raw = PDict d /\ In k comment_keys
                    /\ lookup k d = Some v /\ truthy v = true)
  /\ is_comment_like (PDict [("text", PStr "")]) = false
  /\ is_comment_like (PDict [("text", PStr "hi")]) = true
  /\ is_comment_like (PDict [("id", PStr "5")]) = true
  /\ is_comment_like (PDict []) = false
  /\ is_comment_like (PStr "not a mapping") = false.
Proof.
  split; [|repeat split; reflexivity].
  intros raw. split.
  - destruct raw as [| | | | | |d]; try discriminate.
    unfold is_comment_like. intros H.
    apply existsb_exists in H as (k & Hk & Hv).
    destruct (lookup k d) as [v|] eqn:E; [|discriminate].
    now exists d, k, v.
  - intros (d & k & v & -> & Hk & Hl & Hv). unfold is_comment_like.
    apply existsb_exists. exists k. split; [exact Hk|]. now rewrite Hl.
Qed.

(** ** Text *)

(** C10: the text of every record produced from a raw mapping is the first
    truthy value among [text], [comment], [content], exactly as the raw
    mapping holds it, and the empty string when none is truthy; nothing makes
    it a string. *)
Theorem C10_text_passed_through (d : pydict) (source_url : string) (r : pyval) :
  format_comment_record (PDict d) source_url = Ok r ->
  field "text" r
  = Some (first_truthy d ["text"; "comment"; "content"] (PStr "")).
Proof.
  intros H.
  destruct (format_inv _ _ _ H) as (ub & ct & dg & rp & _ & _ & _ & _ & _ & _ & _ & ->).
  reflexivity.
Qed.

Lemma C10_text_passed_through_witness :
  field "text"
    (returned (format_comment_record (PDict number_as_text) "https://tiktok.com/x"))
  = Some (first_truthy number_as_text ["text"; "comment"; "content"] (PStr "")).
Proof.
  apply (C10_text_passed_through number_as_text "https://tiktok.com/x").
  reflexivity.
Defined.

(** A number under [text] comes out as that number. *)
Example text_not_a_string :
  result_field "text"
    (format_comment_record (PDict number_as_text) "https://tiktok.com/x")
  = Some (PInt 7).
Proof. reflexivity. Qed.

(** ** Normalizing a canonical record again *)

Lemma py_or_fix (v dflt : pyval) :
  truthy v = true \/ v = dflt -> py_or v dflt = v.
Proof. unfold py_or. intros [-> | ->]; [reflexivity | now destruct (truthy dflt)]. Qed.

Lemma str_or_empty_cases (v : pyval) :
  truthy (str_or_empty v) = true \/ str_or_empty v = PStr "".
Proof.
  rewrite truthy_str_or_empty. unfold str_or_empty.
  destruct (truthy v); [now left | now right].
Qed.

Lemma str_or_empty_idem (v : pyval) :
  str_or_empty (str_or_empty v) = str_or_empty v.
Proof.
  destruct (str_or_empty_cases v) as [H | H].
  - unfold str_or_empty at 1. rewrite H. reflexivity.
  - rewrite H. reflexivity.
Qed.

(** The values a canonical record resolves to are its own fields. *)
Lemma record_resolved (pin a c l ct dg rp text ub url : pyval) :
  forall d', PDict d' = record pin a c l ct dg rp text ub url ->
  resolved_pin d' = py_or pin PNone
  /\ resolved_aweme_id d' = py_or a (PStr "")
  /\ resolved_cid d' = py_or c (PStr "")
  /\ resolved_lang d' = py_or l (PStr "")
  /\ resolved_create_time d' = py_or ct (PInt 0)
  /\ resolved_digg d' = py_or dg (PInt 0)
  /\ resolved_replies d' = py_or rp (PInt 0)
  /\ resolved_text d' = py_or text (PStr "")
  /\ resolved_user d' = py_or ub (PDict [])
  /\ resolved_share_url d' = py_or url (PStr "").
Proof.
  intros d' [= ->]. unfold py_or. repeat split; reflexivity.
Qed.

Lemma share_url_fix (s a c : pyval) (source_url : string) :
  let x := py_or s (build_share_url_fallback a c source_url) in
  py_or (py_or x (PStr ""))
    (build_share_url_fallback (str_or_empty a) (str_or_empty c) source_url)
  = x.
Proof.
  intros x. destruct (truthy x) eqn:Hx.
  - rewrite (py_or_fix x (PStr "")) by now left. unfold py_or. now rewrite Hx.
  - assert (Ex : py_or x (PStr "") = PStr "") by (unfold py_or; now rewrite Hx).
    rewrite Ex. unfold py_or at 1. cbn [truthy String.eqb negb].
    subst x. unfold py_or in Hx |- *.
    destruct (truthy s) eqn:Hs; [congruence|].
    unfold build_share_url_fallback in *. rewrite !truthy_str_or_empty.
    destruct (truthy a && truthy c); [discriminate | reflexivity].
Qed.

(** C9: a record produced from a raw mapping and a source URL, given back to
    [format_comment_record] with the same source URL, comes out unchanged. *)
Theorem C9_idempotent (d : pydict) (source_url : string) (r : pyval) :
  format_comment_record (PDict d) source_url = Ok r ->
  format_comment_record r source_url = Ok r.
Proof.
  intros H.
  destruct (format_inv _ _ _ H)
    as (ub & ct & dg & rp & Hub & _ & Hct & _ & Hdg & _ & Hrp & ->).
  destruct (build_user_block_shape _ _ Hub) as (nn & uid & l & -> & Hn & Hu & Hl).
  set (a := str_or_empty (resolved_aweme_id d)).
  set (c := str_or_empty (resolved_cid d)).
  set (lg := str_or_empty (resolved_lang d)).
  set (pin := PBool (truthy (resolved_pin d))).
  set (url := share_url_of d source_url).
  set (text := resolved_text d).
  remember (record pin a c lg (PInt ct) (PInt dg) (PInt rp) text
              (user_block nn uid l) url) as rec eqn:Erec.
  assert (Hd : exists d', rec = PDict d') by (subst rec; now eexists).
  destruct Hd as (d' & Hd'). rewrite Hd'. rewrite format_dict.
  unfold share_url_of.
  assert (Hrec : PDict d' = record pin a c lg (PInt ct) (PInt dg) (PInt rp) text
                              (user_block nn uid l) url) by congruence.
  destruct (record_resolved _ _ _ _ _ _ _ _ _ _ d' Hrec)
    as (-> & -> & -> & -> & -> & -> & -> & -> & -> & ->).
  rewrite (py_or_fix (user_block nn uid l) (PDict [])) by now left.
  rewrite (build_user_block_canonical nn uid l Hn Hu Hl).
  rewrite !int_or_zero_fix by assumption. cbn [bind].
  rewrite <- Hd', Erec. f_equal. unfold record, share_url_of.
  assert (Ea : py_or a (PStr "") = a) by apply py_or_fix, str_or_empty_cases.
  assert (Ec : py_or c (PStr "") = c) by apply py_or_fix, str_or_empty_cases.
  assert (El : py_or lg (PStr "") = lg) by apply py_or_fix, str_or_empty_cases.
  assert (Et : py_or text (PStr "") = text)
    by (apply py_or_fix; subst text; apply first_truthy_cases).
  assert (Ep : PBool (truthy (py_or pin PNone)) = pin)
    by (subst pin; now destruct (truthy (resolved_pin d))).
  rewrite Ea, Ec, El, Et, Ep.
  subst a c lg. rewrite !str_or_empty_idem.
  subst url. unfold share_url_of. rewrite share_url_fix. reflexivity.
Qed.

Lemma C9_idempotent_witness :
  format_comment_record
    (returned (format_comment_record (PDict full_comment) "https://tiktok.com/x"))
    "https://tiktok.com/x"
  = Ok (returned (format_comment_record (PDict full_comment)
                    "https://tiktok.com/x")).
Proof.
  apply (C9_idempotent full_comment "https://tiktok.com/x"). reflexivity.
Defined.

(** * Further properties of the code *)

(** ** [format_comment_record]: when it returns and what it raises *)

Lemma format_returns_on_well_shaped (d : pydict) (source_url : string) :
  well_shaped d = true ->
  exists r, format_comment_record (PDict d) source_url = Ok r.
Proof.
  unfold well_shaped. intros H.
  apply andb_prop in H as [H Hrp]. apply andb_prop in H as [H Hdg].
  apply andb_prop in H as [H Hct]. apply andb_prop in H as [Hu Ha].
  rewrite format_dict.
  destruct (resolved_user d) as [| | | | | |u]; try discriminate.
  destruct (build_user_block_returns u Ha) as (blk & -> & _).
  destruct (int_or_zero_coercible _ Hct) as (ct & ->).
  destruct (int_or_zero_coercible _ Hdg) as (dg & ->).
  destruct (int_or_zero_coercible _ Hrp) as (rp & ->).
  cbn [bind]. now eexists.
Qed.

(** X1: on a raw mapping, [format_comment_record] returns a record exactly
    when the mapping is well shaped; on every other mapping it raises. *)
Theorem X1_returns_iff_well_shaped (d : pydict) (source_url : string) :
  (exists r, format_comment_record (PDict d) source_url = Ok r)
  <-> well_shaped d = true.
Proof.
  split.
  - intros (r & Hr). destruct (well_shaped d) eqn:E; [reflexivity|].
    destruct (format_raises_unless_well_shaped d source_url E) as (e & He).
    congruence.
  - apply format_returns_on_well_shaped.
Qed.

Lemma build_user_block_raises_type (u : pydict) :
  avatar_iterable (PDict u) = false ->
  build_user_block (PDict u) = Raise TypeError.
Proof.
  unfold avatar_iterable. rewrite build_user_block_dict.
  rewrite normalize_avatar_urls_dict, avatar_candidate_dict. cbn [bind].
  match goal with
  | |- context [py_iter ?c] => destruct c; try discriminate
  end; reflexivity.
Qed.

(** X2: the exception tells what was wrong with the raw mapping.  An
    [AttributeError] means the user/author value is not a mapping, a
    [TypeError] that the avatar container of the user cannot be iterated, a
    [ValueError] that one of the counts is a digit string [int] rejects; no
    other exception is raised. *)
Theorem X2_exception_kinds (d : pydict) (source_url : string) (e : exn) :
  format_comment_record (PDict d) source_url = Raise e ->
  (e = AttributeError /\ is_dict (resolved_user d) = false)
  \/ (e = TypeError /\ is_dict (resolved_user d) = true
      /\ avatar_iterable (resolved_user d) = false)
  \/ (e = ValueError /\ is_dict (resolved_user d) = true
      /\ avatar_iterable (resolved_user d) = true
      /\ coercible (resolved_create_time d) && coercible (resolved_digg d)
         && coercible (resolved_replies d) = false).
Proof.
  rewrite format_dict. intros H.
  destruct (is_dict (resolved_user d)) eqn:Hu.
  2:{ rewrite build_user_block_not_dict in H by exact Hu.
      cbn [bind] in H. left.
      split; [congruence | reflexivity]. }
  right. destruct (resolved_user d) as [| | | | | |u]; try discriminate.
  destruct (avatar_iterable (PDict u)) eqn:Ha.
  2:{ rewrite (build_user_block_raises_type u Ha) in H.
      cbn [bind] in H. left.
      repeat split; congruence. }
  right. destruct (build_user_block_returns u Ha) as (blk & Hb & _).
  rewrite Hb in H. cbn [bind] in H.
  destruct (coercible (resolved_create_time d)) eqn:H1.
  2:{ rewrite (int_or_zero_raises _ H1) in H. cbn [bind] in H.
      repeat split; congruence. }
  destruct (int_or_zero_coercible _ H1) as (n1 & E1). rewrite E1 in H.
  cbn [bind] in H.
  destruct (coercible (resolved_digg d)) eqn:H2.
  2:{ rewrite (int_or_zero_raises _ H2) in H. cbn [bind] in H.
      repeat split; congruence. }
  destruct (int_or_zero_coercible _ H2) as (n2 & E2). rewrite E2 in H.
  cbn [bind] in H.
  destruct (coercible (resolved_replies d)) eqn:H3.
  2:{ rewrite (int_or_zero_raises _ H3) in H. cbn [bind] in H.
      repeat split; congruence. }
  destruct (int_or_zero_coercible _ H3) as (n3 & E3). rewrite E3 in H.
  discriminate.
Qed.

Lemma X2_exception_kinds_witness :
  (TypeError = AttributeError
   /\ is_dict (resolved_user number_as_url_list) = false)
  \/ (TypeError = TypeError
      /\ is_dict (resolved_user number_as_url_list) = true
      /\ avatar_iterable (resolved_user number_as_url_list) = false)
  \/ (TypeError = ValueError
      /\ is_dict (resolved_user number_as_url_list) = true
      /\ avatar_iterable (resolved_user number_as_url_list) = true
      /\ coercible (resolved_create_time number_as_url_list)
         && coercible (resolved_digg number_as_url_list)
         && coercible (resolved_replies number_as_url_list) = false).
Proof.
  apply (X2_exception_kinds number_as_url_list "https://tiktok.com/x" TypeError).
  reflexivity.
Defined.

(** ** The schema of a record *)

(** X3: every record [format_comment_record] returns has the ten keys of the
    target schema in their fixed order, a boolean flag, three strings, three
    non-negative integers, a text that is not null, a user block of a
    nickname, a unique id and a list of non-blank strings, and a share
    mapping with its URL. *)
Theorem X3_record_schema (d : pydict) (source_url : string) (r : pyval) :
  format_comment_record (PDict d) source_url = Ok r ->
  exists b a c lg ct dg rp text nn uid urls url,
    r = record (PBool b) (PStr a) (PStr c) (PStr lg) (PInt ct) (PInt dg)
          (PInt rp) text (user_block nn uid urls) url
    /\ 0 <= ct /\ 0 <= dg /\ 0 <= rp
    /\ text <> PNone /\ nn <> PNone /\ uid <> PNone /\ url <> PNone
    /\ Forall not_blank urls.
Proof.
  intros H.
  destruct (format_inv _ _ _ H)
    as (ub & ct & dg & rp & Hub & _ & Hct & _ & Hdg & _ & Hrp & ->).
  destruct (build_user_block_shape _ _ Hub) as (nn & uid & l & -> & Hn & Hu & Hl).
  do 12 eexists. split; [reflexivity|].
  repeat split; try assumption.
  - apply first_truthy_not_none. discriminate.
  - destruct Hn as [Hn | ->]; [|discriminate]. intros ->. discriminate.
  - destruct Hu as [Hu | ->]; [|discriminate]. intros ->. discriminate.
  - unfold share_url_of, py_or.
    destruct (truthy (resolved_share_url d)) eqn:Hs.
    + intros E. rewrite E in Hs. discriminate.
    + unfold build_share_url_fallback, py_or.
      destruct (truthy (resolved_aweme_id d) && truthy (resolved_cid d));
        [discriminate|].
      destruct (truthy (PStr source_url)); discriminate.
  - now apply filter_fix_Forall.
Qed.

Lemma X3_record_schema_witness :
  exists b a c lg ct dg rp text nn uid urls url,
    returned (format_comment_record (PDict full_comment) "https://tiktok.com/x")
    = record (PBool b) (PStr a) (PStr c) (PStr lg) (PInt ct) (PInt dg)
        (PInt rp) text (user_block nn uid urls) url
    /\ 0 <= ct /\ 0 <= dg /\ 0 <= rp
    /\ text <> PNone /\ nn <> PNone /\ uid <> PNone /\ url <> PNone
    /\ Forall not_blank urls.
Proof.
  apply (X3_record_schema full_comment "https://tiktok.com/x"). reflexivity.
Defined.

(** ** Which keys matter *)

Lemma first_truthy_hit (d : pydict) (k : string) (ks : list string)
    (dflt v : pyval) :
  lookup k d = Some v -> truthy v = true -> first_truthy d (k :: ks) dflt = v.
Proof. intros Hk Hv. cbn [first_truthy]. now rewrite Hk, Hv. Qed.

(** X4: the first candidate key wins.  When the first candidate key of
    [aweme_id], [cid] or [comment_language] holds a truthy value, the field is
    the string of that value, whatever the later candidate keys hold. *)
Theorem X4_first_candidate_wins (f : string_field) (d : pydict)
    (source_url : string) (r v : pyval) :
  format_comment_record (PDict d) source_url = Ok r ->
  lookup (hd "" (string_keys f)) d = Some v ->
  truthy v = true ->
  field (string_out_key f) r = Some (PStr (py_str v)).
Proof.
  intros H Hk Hv.
  destruct (format_inv _ _ _ H)
    as (ub & ct & dg & rp & _ & _ & _ & _ & _ & _ & _ & ->).
  destruct f; cbn [string_keys hd string_out_key] in *;
    cbn [field record lookup String.eqb Ascii.eqb Bool.eqb];
    rewrite <- (str_or_empty_truthy v Hv); do 2 f_equal.
  - apply (first_truthy_hit _ _ _ _ _ Hk Hv).
  - apply (first_truthy_hit _ _ _ _ _ Hk Hv).
  - apply (first_truthy_hit _ _ _ _ _ Hk Hv).
Qed.

Lemma X4_first_candidate_wins_witness :
  field (string_out_key FAwemeId)
    (returned (format_comment_record (PDict both_ids) "https://tiktok.com/x"))
  = Some (PStr (py_str (PStr "1"))).
Proof.
  apply (X4_first_candidate_wins FAwemeId both_ids "https://tiktok.com/x");
    reflexivity.
Defined.

Lemma first_truthy_ext (d d' : pydict) (ks : list string) (dflt : pyval) :
  (forall k, In k ks -> lookup k d = lookup k d') ->
  first_truthy d ks dflt = first_truthy d' ks dflt.
Proof.
  induction ks as [|k ks IH]; intros H; [reflexivity|].
  cbn [first_truthy]. rewrite (H k) by now left.
  rewrite IH by (intros k' Hk'; apply H; now right). reflexivity.
Qed.

(** X5: the outcome depends on the candidate keys alone.  Two raw mappings
    that hold the same values under the candidate keys give the same record,
    or raise the same exception, whatever other keys they hold and in
    whatever order their keys come. *)
Theorem X5_only_candidate_keys_matter (d d' : pydict) (source_url : string) :
  (forall k, In k candidate_keys -> lookup k d = lookup k d') ->
  format_comment_record (PDict d) source_url
  = format_comment_record (PDict d') source_url.
Proof.
  intros H. rewrite !format_dict.
  assert (E : forall ks dflt, incl ks candidate_keys ->
                first_truthy d ks dflt = first_truthy d' ks dflt).
  { intros ks dflt Hin. apply first_truthy_ext. intros k Hk. apply H, Hin, Hk. }
  assert (I : forall ks, forallb (fun k => existsb (String.eqb k) candidate_keys)
                           ks = true -> incl ks candidate_keys).
  { intros ks Hks k Hk. rewrite forallb_forall in Hks.
    specialize (Hks k Hk). apply existsb_exists in Hks as (k' & Hk' & Heq).
    apply String.eqb_eq in Heq. now subst. }
  unfold share_url_of, resolved_share_url, resolved_user, resolved_pin,
    resolved_aweme_id, resolved_cid, resolved_lang, resolved_create_time,
    resolved_digg, resolved_replies, resolved_text.
  repeat match goal with
         | |- context [first_truthy d ?ks ?dflt] =>
             rewrite (E ks dflt (I ks eq_refl))
         end.
  reflexivity.
Qed.

Lemma X5_only_candidate_keys_matter_witness :
  format_comment_record (PDict with_unknown_key) "https://tiktok.com/x"
  = format_comment_record (PDict text_only) "https://tiktok.com/x".
Proof.
  apply (X5_only_candidate_keys_matter with_unknown_key text_only).
  intros k Hk. simpl in Hk.
  repeat (destruct Hk as [<- | Hk]; [reflexivity|]). destruct Hk.
Defined.

(** ** The source URL *)

(** X6: the source URL is a fallback only.  When the raw mapping holds a
    non-empty [share_info.url], or resolves both an [aweme_id] and a [cid],
    the outcome is the same for every source URL. *)
Theorem X6_source_url_is_fallback_only (d : pydict) (url1 url2 : string) :
  truthy (nested d "share_info" "url")
  || (truthy (resolved_aweme_id d) && truthy (resolved_cid d)) = true ->
  format_comment_record (PDict d) url1 = format_comment_record (PDict d) url2.
Proof.
  intros H. rewrite !format_dict.
  assert (E : share_url_of d url1 = share_url_of d url2).
  { unfold share_url_of. rewrite resolved_share_url_nested.
    unfold py_or, build_share_url_fallback.
    destruct (truthy (nested d "share_info" "url")) eqn:Hs.
    - now rewrite Hs.
    - cbn [orb] in H. rewrite H. reflexivity. }
  now rewrite E.
Qed.

Lemma X6_source_url_is_fallback_only_witness :
  format_comment_record (PDict ids_only) "https://tiktok.com/x"
  = format_comment_record (PDict ids_only) "".
Proof.
  apply (X6_source_url_is_fallback_only ids_only). reflexivity.
Defined.

(** [build_share_url_fallback] always returns a string, and the string is
    empty exactly when an id is missing and the source URL is empty. *)
Lemma fallback_is_a_string (aweme_id cid : pyval) (source_url : string) :
  exists s,
    build_share_url_fallback aweme_id cid source_url = PStr s
    /\ (String.eqb s ""
        = negb (truthy aweme_id && truthy cid) && String.eqb source_url "").
Proof.
  unfold build_share_url_fallback, py_or.
  destruct (truthy aweme_id && truthy cid).
  - eexists. split; reflexivity.
  - destruct source_url as [|c s]; eexists; split; reflexivity.
Qed.

(** ** Counts *)

(** X7: no float and no boolean ever passes the numeric coercion.  When a
    count resolves to a float or to a boolean, its canonical value is 0, even
    for an integral float such as 17.0. *)
Theorem X7_float_and_bool_counts_are_zero (f : zero_field) (d : pydict)
    (source_url : string) (r : pyval) :
  format_comment_record (PDict d) source_url = Ok r ->
  f <> FAuthorPin ->
  is_float_or_bool
    (first_truthy d (first_key f :: later_keys f) (default_of f)) = true ->
  field (out_key f) r = Some (PInt 0).
Proof.
  intros H Hf Hv.
  destruct (format_inv _ _ _ H)
    as (ub & ct & dg & rp & _ & Hct & _ & Hdg & _ & Hrp & _ & ->).
  assert (Z0 : forall v n,
             is_float_or_bool v = true ->
             int_or_zero v = Ok (PInt n) -> n = 0).
  { intros v n Hvv Hn. destruct v; try discriminate.
    - rewrite int_or_zero_bool in Hn. congruence.
    - rewrite int_or_zero_float in Hn. congruence. }
  destruct f; [congruence | | |];
    cbn [first_key later_keys default_of out_key] in *;
    cbn [field record lookup String.eqb Ascii.eqb Bool.eqb]; do 2 f_equal.
  - exact (Z0 _ _ Hv Hct).
  - exact (Z0 _ _ Hv Hdg).
  - exact (Z0 _ _ Hv Hrp).
Qed.

Lemma X7_float_and_bool_counts_are_zero_witness :
  field (out_key FCreateTime)
    (returned (format_comment_record (PDict float_count) "https://tiktok.com/x"))
  = Some (PInt 0).
Proof.
  apply (X7_float_and_bool_counts_are_zero FCreateTime float_count
           "https://tiktok.com/x"); [reflexivity | discriminate | reflexivity].
Defined.

(** ** [build_user_block] and [normalize_avatar_urls] *)

(** X8: [build_user_block] raises [AttributeError] exactly on the values that
    are not mappings; the guard of [normalize_avatar_urls] against such
    values is never reached from it. *)
Theorem X8_user_block_attribute_error (user : pyval) :
  build_user_block user = Raise AttributeError <-> is_dict user = false.
Proof.
  split.
  - destruct user as [| | | | | |u]; try reflexivity.
    destruct (avatar_iterable (PDict u)) eqn:Ha.
    + destruct (build_user_block_returns u Ha) as (blk & -> & _). discriminate.
    + rewrite (build_user_block_raises_type u Ha). discriminate.
  - apply build_user_block_not_dict.
Qed.

(** X9: on a user mapping [normalize_avatar_urls] raises exactly when the
    container it selects cannot be iterated (a number or a boolean under
    [url_list], say), and the exception is a [TypeError]. *)
Theorem X9_avatar_type_error (u : pydict) (e : exn) :
  normalize_avatar_urls (PDict u) = Raise e
  <-> e = TypeError /\ iterable (selected_avatar u) = false.
Proof.
  rewrite normalize_selected.
  destruct (selected_avatar u) as [| | | | | |]; cbn [py_iter bind iterable];
    split; try discriminate; try (intros [_ H]; discriminate);
    try (intros [= <-]; now split); intros [-> _]; reflexivity.
Qed.

(** X10: a user block is a fixed point of [build_user_block]. *)
Theorem X10_user_block_idempotent (user blk : pyval) :
  build_user_block user = Ok blk -> build_user_block blk = Ok blk.
Proof.
  intros H.
  destruct (build_user_block_shape _ _ H) as (nn & uid & l & -> & Hn & Hu & Hl).
  now apply build_user_block_canonical.
Qed.

Lemma X10_user_block_idempotent_witness :
  build_user_block (returned (build_user_block (PDict padded_url)))
  = Ok (returned (build_user_block (PDict padded_url))).
Proof.
  apply (X10_user_block_idempotent (PDict padded_url)). reflexivity.
Defined.

Lemma keep_url_char (c : ascii) :
  keep_url (PStr (String c "")) = negb (is_space c).
Proof.
  cbn [keep_url truthy]. unfold strip. cbn [lstrip].
  destruct (is_space c) eqn:Hc; [reflexivity|].
  cbn [rstrip]. now rewrite Hc.
Qed.

Lemma filter_map_chars (l : list ascii) :
  filter keep_url (map (fun c => PStr (String c "")) l)
  = map (fun c => PStr (String c "")) (filter (fun c => negb (is_space c)) l).
Proof.
  induction l as [|c l IH]; [reflexivity|].
  cbn [map filter]. rewrite keep_url_char.
  destruct (negb (is_space c)); cbn [map]; now rewrite IH.
Qed.

(** X11: a string where the list of URLs is expected is taken apart.  When
    [avatar_thumb.url_list] holds a non-empty string, the avatar list is made
    of its characters that are not blanks, one string each, and not of the
    string itself. *)
Theorem X11_string_url_list_is_split (u : pydict) (s : string) :
  nested u "avatar_thumb" "url_list" = PStr s ->
  String.eqb s "" = false ->
  normalize_avatar_urls (PDict u)
  = Ok (PList (map (fun c => PStr (String c ""))
                 (filter (fun c => negb (is_space c))
                    (list_ascii_of_string s)))).
Proof.
  intros Hn Hs. rewrite normalize_selected. unfold selected_avatar.
  rewrite Hn. cbn [truthy]. rewrite Hs. cbn [negb py_iter bind].
  now rewrite filter_map_chars.
Qed.

Lemma X11_string_url_list_is_split_witness :
  normalize_avatar_urls (PDict string_as_url_list)
  = Ok (PList (map (fun c => PStr (String c ""))
                 (filter (fun c => negb (is_space c))
                    (list_ascii_of_string "a b")))).
Proof.
  apply (X11_string_url_list_is_split string_as_url_list "a b"); reflexivity.
Defined.

(** X12: the nickname and the unique id of a user block are the first truthy
    values among their candidate keys, as the user mapping holds them, and
    the empty string when there is none; they are not made strings. *)
Theorem X12_user_names_passed_through (u : pydict) (blk : pyval) :
  build_user_block (PDict u) = Ok blk ->
  field "nickname" blk
  = Some (first_truthy u ["nickname"; "nicknameName"; "display_name";
                          "displayName"] (PStr ""))
  /\ field "unique_id" blk
     = Some (first_truthy u ["unique_id"; "uniqueId"; "username"; "uid"]
               (PStr "")).
Proof.
  rewrite build_user_block_dict.
  destruct (normalize_avatar_urls (PDict u)); [|discriminate].
  cbn [bind]. intros [= <-]. split; reflexivity.
Qed.

Lemma X12_user_names_passed_through_witness :
  field "nickname"
    (returned (build_user_block (PDict [("displayName", PInt 7)])))
  = Some (first_truthy [("displayName", PInt 7)]
            ["nickname"; "nicknameName"; "display_name"; "displayName"]
            (PStr ""))
  /\ field "unique_id"
       (returned (build_user_block (PDict [("displayName", PInt 7)])))
     = Some (first_truthy [("displayName", PInt 7)]
               ["unique_id"; "uniqueId"; "username"; "uid"] (PStr "")).
Proof.
  apply (X12_user_names_passed_through [("displayName", PInt 7)]). reflexivity.
Defined.

(** ** [walk_path] and [flatten_for_csv] *)

Lemma split_on_nonempty (sep : ascii) (s : string) : split_on sep s <> [].
Proof.
  destruct s as [|c s]; cbn [split_on]; [discriminate|].
  destruct (Ascii.eqb c sep); [discriminate|].
  destruct (split_on sep s); discriminate.
Qed.

Lemma split_on_app (sep : ascii) (p q : string) :
  split_on sep (p ++ String sep q) = (split_on sep p ++ split_on sep q)%list.
Proof.
  induction p as [|c p IH]; cbn [append split_on].
  - now rewrite Ascii.eqb_refl.
  - destruct (Ascii.eqb c sep); [now rewrite IH|].
    rewrite IH. pose proof (split_on_nonempty sep p) as Hp.
    destruct (split_on sep p) as [|part parts]; [congruence | reflexivity].
Qed.

Lemma walk_parts_none (parts : list string) : walk_parts PNone parts = PNone.
Proof. now destruct parts. Qed.

Lemma walk_parts_app (a b : list string) :
  forall obj, walk_parts obj (a ++ b) = walk_parts (walk_parts obj a) b.
Proof.
  induction a as [|part a IH]; intros obj; [reflexivity|].
  cbn [List.app walk_parts].
  destruct obj as [| | | | | |d]; try (now rewrite walk_parts_none).
  destruct (lookup part d) as [v|]; [apply IH | now rewrite walk_parts_none].
Qed.

(** X13: walking a dotted path is walking its two halves in turn: the value
    at [p.q] is the value at [q] of the value at [p], a missing step giving
    [None] from there on. *)
Theorem X13_walk_path_composes (obj : pyval) (p q : string) :
  walk_path obj (p ++ "." ++ q) = walk_path (walk_path obj p) q.
Proof.
  unfold walk_path. change (p ++ "." ++ q)%string with (p ++ String "." q)%string.
  now rewrite split_on_app, walk_parts_app.
Qed.

Lemma dict_get_set {A : Type} (k k' : string) (v : A) (d : list (string * A)) :
  dict_get k (dict_set k' v d)
  = if String.eqb k k' then Some v else dict_get k d.
Proof.
  induction d as [|[k0 v0] d IH]; cbn [dict_set dict_get].
  - reflexivity.
  - destruct (String.eqb k' k0) eqn:E0; cbn [dict_get].
    + apply String.eqb_eq in E0. subst k0.
      destruct (String.eqb k k'); reflexivity.
    + destruct (String.eqb k k0) eqn:E1.
      * apply String.eqb_eq in E1. subst k0.
        rewrite String.eqb_sym in E0. now rewrite E0.
      * exact IH.
Qed.

Lemma flatten_get_from (record : pyval) (fo : list string) (k : string) :
  forall acc,
    dict_get k
      (fold_left (fun out path =>
                    dict_set path (csv_cell (walk_path record path)) out) fo acc)
    = if existsb (String.eqb k) fo
      then Some (csv_cell (walk_path record k))
      else dict_get k acc.
Proof.
  induction fo as [|p fo IH]; intros acc; [reflexivity|].
  cbn [fold_left existsb]. rewrite IH, dict_get_set.
  destruct (String.eqb k p) eqn:E.
  - apply String.eqb_eq in E. subst p. cbn [orb].
    now destruct (existsb (String.eqb k) fo).
  - reflexivity.
Qed.

(** X14: a flattened record holds exactly the paths it was asked for, each
    with the text of the value found there: the JSON text of a list or a
    mapping, the empty string for [None] or a missing path, [str] of anything
    else. *)
Theorem X14_flatten_lookup (record : pyval) (field_order : list string)
    (k : string) :
  dict_get k (flatten_for_csv record field_order)
  = if existsb (String.eqb k) field_order
    then Some (csv_cell (walk_path record k))
    else None.
Proof. unfold flatten_for_csv. now rewrite flatten_get_from. Qed.

Lemma csv_cells_flatten (record : pyval) (fo : list string) :
  csv_cells fo (flatten_for_csv record fo)
  = map (fun k => csv_cell (walk_path record k)) fo.
Proof.
  unfold csv_cells. apply map_ext_in. intros k Hk.
  unfold flatten_for_csv. rewrite flatten_get_from.
  assert (E : existsb (String.eqb k) fo = true)
    by (apply existsb_exists; exists k; split; [exact Hk | apply String.eqb_refl]).
  now rewrite E.
Qed.

(** X15: the CSV row of a normalized record.  With the columns [main] asks
    for, every column of every record [format_comment_record] returns is
    found: the flag is written [True] or [False], the ids and the language as
    they are, the counts in decimal, the avatar list as JSON text. *)
Theorem X15_csv_row_of_record (d : pydict) (source_url : string) (r : pyval) :
  format_comment_record (PDict d) source_url = Ok r ->
  exists b a c lg ct dg rp text nn uid urls url,
    r = record (PBool b) (PStr a) (PStr c) (PStr lg) (PInt ct) (PInt dg)
          (PInt rp) text (user_block nn uid urls) url
    /\ csv_cells main_field_order (flatten_for_csv r main_field_order)
       = [if b then "True" else "False"; a; c; lg;
          str_of_Z ct; str_of_Z dg; str_of_Z rp;
          csv_cell text; csv_cell nn; csv_cell uid;
          json_dumps (PList urls); csv_cell url].
Proof.
  intros H.
  destruct (format_inv _ _ _ H)
    as (ub & ct & dg & rp & Hub & _ & _ & _ & _ & _ & _ & ->).
  destruct (build_user_block_shape _ _ Hub) as (nn & uid & l & -> & _ & _ & _).
  do 12 eexists. split; [reflexivity|].
  rewrite csv_cells_flatten. reflexivity.
Qed.

Lemma X15_csv_row_of_record_witness :
  exists b a c lg ct dg rp text nn uid urls url,
    returned (format_comment_record (PDict full_comment) "https://tiktok.com/x")
    = record (PBool b) (PStr a) (PStr c) (PStr lg) (PInt ct) (PInt dg)
        (PInt rp) text (user_block nn uid urls) url
    /\ csv_cells main_field_order
         (flatten_for_csv
            (returned (format_comment_record (PDict full_comment)
                         "https://tiktok.com/x")) main_field_order)
       = [if b then "True" else "False"; a; c; lg;
          str_of_Z ct; str_of_Z dg; str_of_Z rp;
          csv_cell text; csv_cell nn; csv_cell uid;
          json_dumps (PList urls); csv_cell url].
Proof.
  apply (X15_csv_row_of_record full_comment "https://tiktok.com/x").
  reflexivity.
Defined.

(** ** The exporter *)

Lemma write_many_json (rows : list pyval) :
  forall e, ex_format e = "json" ->
    write_many e rows
    = {| ex_format := ex_format e; ex_field_order := ex_field_order e;
         ex_buffer := (ex_buffer e ++ rows)%list;
         ex_text := ex_text e; ex_rows := ex_rows e |}.
Proof.
  induction rows as [|row rows IH]; intros e He; cbn [write_many fold_left].
  - rewrite app_nil_r. now destruct e.
  - fold (write_many (write_one e row) rows).
    unfold write_one. rewrite He. cbn [String.eqb Ascii.eqb Bool.eqb].
    rewrite IH by reflexivity. cbn. now rewrite <- app_assoc.
Qed.

Lemma write_many_jsonl (rows : list pyval) :
  forall e, ex_format e = "jsonl" ->
    write_many e rows
    = {| ex_format := ex_format e; ex_field_order := ex_field_order e;
         ex_buffer := ex_buffer e;
         ex_text := (ex_text e
                     ++ map (fun r => (json_dumps r ++ newline)%string) rows)%list;
         ex_rows := ex_rows e |}.
Proof.
  induction rows as [|row rows IH]; intros e He; cbn [write_many fold_left map].
  - rewrite app_nil_r. now destruct e.
  - fold (write_many (write_one e row) rows).
    unfold write_one. rewrite He. cbn [String.eqb Ascii.eqb Bool.eqb].
    rewrite IH by reflexivity. cbn. now rewrite <- app_assoc.
Qed.

Lemma write_many_csv (rows : list pyval) :
  forall e, ex_format e = "csv" ->
    write_many e rows
    = {| ex_format := ex_format e; ex_field_order := ex_field_order e;
         ex_buffer := ex_buffer e; ex_text := ex_text e;
         ex_rows := (ex_rows e
                     ++ map (fun r => map (fun k => csv_cell (walk_path r k))
                                        (ex_field_order e)) rows)%list |}.
Proof.
  induction rows as [|row rows IH]; intros e He; cbn [write_many fold_left map].
  - rewrite app_nil_r. now destruct e.
  - fold (write_many (write_one e row) rows).
    unfold write_one. rewrite He. cbn [String.eqb Ascii.eqb Bool.eqb].
    rewrite IH by reflexivity. cbn. rewrite csv_cells_flatten.
    now rewrite <- app_assoc.
Qed.

(** X16: an exporter that could be created records every row it is given,
    once and in order, in the one output of its format, the format being
    read without regard to case: the rows themselves for JSON, one line of
    JSON text per row for JSON lines, and for CSV the header followed by one
    row of cells per record, a cell per column. *)
Theorem X16_exporter_records_every_row (output_format : string)
    (field_order : list string) (e : exporter) (rows : list pyval) :
  exporter_init output_format field_order = Ok e ->
  (lower output_format = "json"
   /\ ex_buffer (write_many e rows) = rows
   /\ ex_text (write_many e rows) = []
   /\ ex_rows (write_many e rows) = [])
  \/ (lower output_format = "jsonl"
      /\ ex_buffer (write_many e rows) = []
      /\ ex_text (write_many e rows)
         = map (fun r => (json_dumps r ++ newline)%string) rows
      /\ ex_rows (write_many e rows) = [])
  \/ (lower output_format = "csv"
      /\ ex_buffer (write_many e rows) = []
      /\ ex_text (write_many e rows) = []
      /\ ex_rows (write_many e rows)
         = field_order
           :: map (fun r => map (fun k => csv_cell (walk_path r k)) field_order)
                rows).
Proof.
  unfold exporter_init.
  destruct (String.eqb (lower output_format) "json") eqn:E1.
  { apply String.eqb_eq in E1. intros [= <-]. left.
    rewrite write_many_json by exact E1. cbn. now repeat split. }
  destruct (String.eqb (lower output_format) "jsonl") eqn:E2.
  { apply String.eqb_eq in E2. intros [= <-]. right. left.
    rewrite write_many_jsonl by exact E2. cbn. now repeat split. }
  destruct (String.eqb (lower output_format) "csv") eqn:E3; [|discriminate].
  apply String.eqb_eq in E3. intros [= <-]. right. right.
  rewrite write_many_csv by exact E3. cbn. now repeat split.
Qed.

(** Any other format is refused: [Exporter] raises [ValueError] exactly
    when the format, in lower case, is none of [json], [jsonl], [csv]. *)
Lemma exporter_refuses_other_formats (output_format : string)
    (field_order : list string) :
  exporter_init output_format field_order = Raise ValueError
  <-> ~ In (lower output_format) ["json"; "jsonl"; "csv"].
Proof.
  unfold exporter_init.
  destruct (String.eqb (lower output_format) "json") eqn:E1.
  { apply String.eqb_eq in E1. split; [discriminate|]. intros H.
    exfalso. apply H. left. now rewrite E1. }
  destruct (String.eqb (lower output_format) "jsonl") eqn:E2.
  { apply String.eqb_eq in E2. split; [discriminate|]. intros H.
    exfalso. apply H. right. left. now rewrite E2. }
  destruct (String.eqb (lower output_format) "csv") eqn:E3.
  { apply String.eqb_eq in E3. split; [discriminate|]. intros H.
    exfalso. apply H. right. right. left. now rewrite E3. }
  apply String.eqb_neq in E1, E2, E3. split; [|reflexivity].
  intros _ [H | [H | [H | []]]]; congruence.
Qed.

Lemma X16_exporter_records_every_row_witness :
  (lower "CSV" = "json"
   /\ ex_buffer (write_many (returned_exporter (exporter_init "CSV" ["text"]))
                   [PDict text_only]) = [PDict text_only]
   /\ ex_text (write_many (returned_exporter (exporter_init "CSV" ["text"]))
                 [PDict text_only]) = []
   /\ ex_rows (write_many (returned_exporter (exporter_init "CSV" ["text"]))
                 [PDict text_only]) = [])
  \/ (lower "CSV" = "jsonl"
      /\ ex_buffer (write_many (returned_exporter (exporter_init "CSV" ["text"]))
                      [PDict text_only]) = []
      /\ ex_text (write_many (returned_exporter (exporter_init "CSV" ["text"]))
                    [PDict text_only])
         = map (fun r => (json_dumps r ++ newline)%string) [PDict text_only]
      /\ ex_rows (write_many (returned_exporter (exporter_init "CSV" ["text"]))
                    [PDict text_only]) = [])
  \/ (lower "CSV" = "csv"
      /\ ex_buffer (write_many (returned_exporter (exporter_init "CSV" ["text"]))
                      [PDict text_only]) = []
      /\ ex_text (write_many (returned_exporter (exporter_init "CSV" ["text"]))
                    [PDict text_only]) = []
      /\ ex_rows (write_many (returned_exporter (exporter_init "CSV" ["text"]))
                    [PDict text_only])
         = ["text"]
           :: map (fun r => map (fun k => csv_cell (walk_path r k)) ["text"])
                [PDict text_only]).
Proof.
  apply (X16_exporter_records_every_row "CSV" ["text"]). reflexivity.
Defined.

(** ** One record per line *)

Lemma all_chars_impl (p q : ascii -> bool) (s : string) :
  (forall c, p c = true -> q c = true) ->
  all_chars p s = true -> all_chars q s = true.
Proof.
  intros Hpq. induction s as [|c s IH]; cbn [all_chars]; [reflexivity|].
  intros [Hc Hs]%andb_prop. now rewrite (Hpq c Hc), IH.
Qed.

Lemma all_chars_take (p : ascii -> bool) (s : string) :
  all_chars p s = true -> forall n, all_chars p (take n s) = true.
Proof.
  induction s as [|c s IH]; intros H n; destruct n; try reflexivity.
  cbn [take all_chars] in *. apply andb_prop in H as [Hc Hs].
  now rewrite Hc, IH.
Qed.

Lemma all_chars_drop (p : ascii -> bool) (s : string) :
  all_chars p s = true -> forall n, all_chars p (drop n s) = true.
Proof.
  induction s as [|c s IH]; intros H n; destruct n; try exact H.
  cbn [drop all_chars] in *. apply andb_prop in H as [_ Hs]. now apply IH.
Qed.

Lemma all_chars_repeat (p : ascii -> bool) (c : ascii) (n : nat) :
  p c = true -> all_chars p (repeat_char c n) = true.
Proof. intros H. induction n; cbn [repeat_char all_chars]; [|rewrite H]; auto. Qed.

Lemma all_chars_join (p : ascii -> bool) (sep : string) (l : list string) :
  all_chars p sep = true -> Forall (fun s => all_chars p s = true) l ->
  all_chars p (join sep l) = true.
Proof.
  intros Hsep H. induction H as [|s l Hs Hl IH]; [reflexivity|].
  cbn [join]. destruct l as [|s' l']; [exact Hs|].
  now rewrite !all_chars_app, Hs, Hsep, IH.
Qed.

Lemma contains_char_all (c : ascii) (s : string) :
  contains_char c s = negb (all_chars (fun x => negb (Ascii.eqb c x)) s).
Proof.
  induction s as [|x s IH]; cbn [contains_char all_chars]; [reflexivity|].
  rewrite IH. now destruct (Ascii.eqb c x).
Qed.

Lemma decimal_not_line_feed (c : ascii) :
  is_decimal c = true -> not_line_feed c = true.
Proof.
  destruct c as [[] [] [] [] [] [] [] []]; vm_compute; congruence.
Qed.

Lemma json_escape_char_no_line_feed (c : ascii) :
  all_chars not_line_feed (json_escape_char c) = true.
Proof. destruct c as [[] [] [] [] [] [] [] []]; reflexivity. Qed.

Lemma json_string_no_line_feed (s : string) :
  all_chars not_line_feed (json_string s) = true.
Proof.
  unfold json_string.
  assert (E : all_chars not_line_feed (json_escape s) = true).
  { induction s as [|c s IH]; [reflexivity|]. cbn [json_escape].
    now rewrite all_chars_app, json_escape_char_no_line_feed, IH. }
  cbn [all_chars]. rewrite all_chars_app, E. reflexivity.
Qed.

Lemma nilzero_no_line_feed (d : uint) :
  all_chars not_line_feed (NilZero.string_of_uint d) = true.
Proof.
  apply (all_chars_impl is_decimal); [apply decimal_not_line_feed|].
  apply nilzero_all_decimal.
Qed.

Lemma str_of_Z_no_line_feed (z : Z) :
  all_chars not_line_feed (str_of_Z z) = true.
Proof.
  unfold str_of_Z. destruct z; cbn [Z.to_int NilZero.string_of_int all_chars];
    apply nilzero_no_line_feed.
Qed.

Lemma float_repr_no_line_feed (f : pyfloat) :
  all_chars not_line_feed (float_repr f) = true.
Proof.
  destruct f as [|[|]|neg m decpt]; try reflexivity.
  unfold float_repr, exponent_str, digits_of_N.
  pose proof (nilzero_no_line_feed (N.to_uint m)) as Hd.
  pose proof (nilzero_no_line_feed (N.to_uint (Z.abs_N (decpt - 1)))) as He.
  repeat match goal with
         | |- context [if ?b then _ else _] => destruct b
         end;
    repeat (rewrite all_chars_app || cbn [all_chars]);
    rewrite ?all_chars_take, ?all_chars_drop, ?all_chars_repeat, ?Hd, ?He
      by (assumption || reflexivity);
    reflexivity.
Qed.

Lemma json_dumps_no_line_feed (v : pyval) :
  all_chars not_line_feed (json_dumps v) = true.
Proof.
  induction v using pyval_induction.
  - reflexivity.
  - now destruct b.
  - apply str_of_Z_no_line_feed.
  - destruct f as [|[|]|neg m decpt]; try reflexivity.
    apply float_repr_no_line_feed.
  - apply json_string_no_line_feed.
  - cbn [json_dumps]. rewrite !all_chars_app. cbn [all_chars].
    rewrite all_chars_join; [reflexivity | reflexivity |].
    apply Forall_map. exact H.
  - cbn [json_dumps]. rewrite !all_chars_app. cbn [all_chars].
    rewrite all_chars_join; [reflexivity | reflexivity |].
    apply Forall_map. apply Forall_forall. intros [k x] Hkx.
    rewrite Forall_forall in H. specialize (H (k, x) Hkx). cbn [snd] in H.
    rewrite !all_chars_app, json_string_no_line_feed, H. reflexivity.
Qed.

(** X17: one record per line.  Every line an exporter of JSON lines writes is
    the JSON text of a row followed by a line feed, and that text holds no
    line feed of its own, whatever the row holds. *)
Theorem X17_jsonl_one_record_per_line (output_format : string)
    (field_order : list string) (e : exporter) (rows : list pyval) :
  exporter_init output_format field_order = Ok e ->
  lower output_format = "jsonl" ->
  List.length (ex_text (write_many e rows)) = List.length rows
  /\ Forall (fun line =>
               exists body, line = (body ++ newline)%string
                            /\ contains_char (ascii_of_N 10) body = false)
       (ex_text (write_many e rows)).
Proof.
  intros Hinit Hfmt. unfold exporter_init in Hinit. rewrite Hfmt in Hinit.
  cbn in Hinit. injection Hinit as <-.
  rewrite write_many_jsonl by reflexivity. cbn [ex_text app].
  split; [apply length_map|].
  apply Forall_map, Forall_forall. intros row _.
  exists (json_dumps row). split; [reflexivity|].
  rewrite contains_char_all.
  change (fun x => negb (Ascii.eqb (ascii_of_N 10) x)) with not_line_feed.
  now rewrite json_dumps_no_line_feed.
Qed.

Lemma X17_jsonl_one_record_per_line_witness :
  List.length (ex_text (write_many (returned_exporter (exporter_init "jsonl" []))
                     [PDict [("text", PStr newline)]]))
  = List.length [PDict [("text", PStr newline)]]
  /\ Forall (fun line =>
               exists body, line = (body ++ newline)%string
                            /\ contains_char (ascii_of_N 10) body = false)
       (ex_text (write_many (returned_exporter (exporter_init "jsonl" []))
                   [PDict [("text", PStr newline)]])).
Proof.
  apply (X17_jsonl_one_record_per_line "jsonl" []); reflexivity.
Defined.

(** ** [_extract_comments_from_sigi] *)

Lemma py_iter_raises (v : pyval) (e : exn) :
  py_iter v = Raise e -> e = TypeError.
Proof. destruct v; cbn [py_iter]; congruence. Qed.

(** X18: whatever [_extract_comments_from_sigi] returns holds mappings only,
    so no comment it yields makes [format_comment_record] fail on its first
    lookup. *)
Theorem X18_extracted_comments_are_mappings (data : pyval) (l : list pyval) :
  extract_comments_from_sigi data = Ok l ->
  Forall (fun c => is_dict c = true) l.
Proof.
  unfold extract_comments_from_sigi. cbv zeta.
  match goal with
  | |- context [py_iter ?x] => destruct (py_iter x) as [items|]
  end; [|discriminate].
  cbn [bind]. intros [= <-]. apply Forall_forall. intros c Hc.
  now apply filter_In in Hc.
Qed.

Lemma X18_extracted_comments_are_mappings_witness :
  Forall (fun c => is_dict c = true) [PDict [("text", PStr "a")]].
Proof.
  apply (X18_extracted_comments_are_mappings (PDict comments_as_mapping)).
  reflexivity.
Defined.

(** X19: [_extract_comments_from_sigi] guards its lookups but not its loop:
    it returns the empty list on anything that is not a mapping, and the only
    exception it lets out is the [TypeError] of iterating a [comments] value
    that cannot be iterated, which only a mapping can hold. *)
Theorem X19_extract_raises_only_type_error (data : pyval) :
  (is_dict data = false /\ extract_comments_from_sigi data = Ok [])
  \/ (is_dict data = true
      /\ (extract_comments_from_sigi data = Raise TypeError
          \/ exists l, extract_comments_from_sigi data = Ok l)).
Proof.
  destruct data as [| | | | | |d]; try (left; split; reflexivity).
  right. split; [reflexivity|].
  destruct (extract_comments_from_sigi (PDict d)) as [l|e] eqn:H.
  - right. now exists l.
  - left. f_equal. unfold extract_comments_from_sigi in H. cbv zeta in H.
    match type of H with
    | context [py_iter ?x] => destruct (py_iter x) as [items|] eqn:Hi
    end; [discriminate|].
    cbn [bind] in H. apply py_iter_raises in Hi. congruence.
Qed.

(** A number under [comments] is the exception that gets out. *)
Example extract_number_raises :
  extract_comments_from_sigi (PDict comments_as_number) = Raise TypeError.
Proof. reflexivity. Qed.

(** X20: [CommentItem] comes first.  When [CommentItem.comments] holds a
    non-empty value, the comments are the mappings among its items, or among
    its values when it is itself a mapping, whatever [Comments] holds. *)
Theorem X20_comment_item_first (d t : pydict) (c : pyval) :
  lookup "CommentItem" d = Some (PDict t) ->
  lookup "comments" t = Some c ->
  truthy c = true ->
  extract_comments_from_sigi (PDict d)
  = items <- py_iter (values_or_self c) ;; Ok (filter is_dict items).
Proof.
  intros Hd Ht Hc. unfold extract_comments_from_sigi.
  cbn [py_get_default bind]. rewrite Hd. cbn [py_get_default bind].
  rewrite Ht. unfold or_else. rewrite Hc. cbn [try_or]. cbv zeta.
  destruct c as [| | | | | |m]; cbn [values_or_self]; unfold py_or;
    try (rewrite Hc; reflexivity).
  destruct m as [|kv m]; [discriminate | reflexivity].
Qed.

Lemma X20_comment_item_first_witness :
  extract_comments_from_sigi (PDict comments_as_mapping)
  = items <- py_iter
               (values_or_self
                  (PDict [("1", PDict [("text", PStr "a")]); ("2", PInt 3)])) ;;
    Ok (filter is_dict items).
Proof.
  apply (X20_comment_item_first comments_as_mapping
           [("comments",
             PDict [("1", PDict [("text", PStr "a")]); ("2", PInt 3)])]);
    reflexivity.
Defined.

(** ** The records of one video *)

Lemma format_normalizable (c : pyval) (url : string) :
  (exists r, format_comment_record c url = Ok r) <-> normalizable c = true.
Proof.
  destruct c as [| | | | | |d];
    try (rewrite format_not_dict by reflexivity; split;
         [intros (r & Hr); discriminate | discriminate]).
  cbn [normalizable]. split.
  - intros (r & Hr). destruct (well_shaped d) eqn:E; [reflexivity|].
    destruct (format_raises_unless_well_shaped d url E) as (e & He).
    congruence.
  - apply format_returns_on_well_shaped.
Qed.

Lemma valid_records_returns (keep : pyval -> bool) (url : string)
    (comments : list pyval) :
  forallb (fun c => negb (keep c) || normalizable c) comments = true ->
  exists records,
    valid_records keep comments url = Ok records
    /\ List.length records = List.length (filter keep comments).
Proof.
  unfold valid_records.
  induction comments as [|c l IH]; cbn [forallb comprehension filter].
  - intros _. now exists [].
  - intros [Hc Hl]%andb_prop. destruct (IH Hl) as (rs & Hrs & Hlen).
    destruct (keep c); [|now exists rs].
    cbn [negb orb] in Hc.
    apply (proj2 (format_normalizable c url)) in Hc as (r & Hr).
    rewrite Hr, Hrs. cbn [bind]. exists (r :: rs). split; [reflexivity|].
    cbn [List.length]. now rewrite Hlen.
Qed.

Lemma valid_records_raises (keep : pyval -> bool) (url : string)
    (comments : list pyval) :
  forallb (fun c => negb (keep c) || normalizable c) comments = false ->
  exists e, valid_records keep comments url = Raise e.
Proof.
  unfold valid_records.
  induction comments as [|c l IH]; cbn [forallb comprehension]; [discriminate|].
  destruct (keep c) eqn:Hk; cbn [negb orb].
  - destruct (normalizable c) eqn:Hn; cbn [andb].
    + apply (proj2 (format_normalizable c url)) in Hn as (r & ->). cbn [bind].
      intros H. destruct (IH H) as (e & ->). now exists e.
    + intros _. destruct (format_comment_record c url) as [r|e] eqn:Hf.
      * assert (normalizable c = true)
          by (apply (proj1 (format_normalizable c url)); now exists r).
        congruence.
      * now exists e.
  - exact IH.
Qed.

(** X21: the records of a video are built exactly when every comment the
    validity filter keeps can be normalized; then there is one record for
    each kept comment. *)
Theorem X21_valid_records_iff (keep : pyval -> bool) (comments : list pyval)
    (url : string) :
  (exists records,
      valid_records keep comments url = Ok records
      /\ List.length records = List.length (filter keep comments))
  <-> forallb (fun c => negb (keep c) || normalizable c) comments = true.
Proof.
  split.
  - intros (rs & Hrs & _).
    destruct (forallb (fun c => negb (keep c) || normalizable c) comments)
      eqn:E; [reflexivity|].
    destruct (valid_records_raises keep url comments E) as (e & He).
    congruence.
  - apply valid_records_returns.
Qed.

(** X22: all or nothing.  When one comment the validity filter keeps cannot
    be normalized, nothing is written for the video: the exporter is left as
    it was, and the comments that could be normalized are lost with it. *)
Theorem X22_one_bad_comment_drops_the_video (keep : pyval -> bool)
    (e : exporter) (comments : list pyval) (url : string) :
  forallb (fun c => negb (keep c) || normalizable c) comments = false ->
  process_video keep e comments url = e.
Proof.
  intros H. unfold process_video.
  now destruct (valid_records_raises keep url comments H) as (ex & ->).
Qed.

Lemma X22_one_bad_comment_drops_the_video_witness :
  process_video is_comment_like
    (returned_exporter (exporter_init "json" []))
    [PDict text_only; PDict string_as_user] "https://tiktok.com/x"
  = returned_exporter (exporter_init "json" []).
Proof.
  apply (X22_one_bad_comment_drops_the_video is_comment_like). reflexivity.
Defined.

(** ** Settings *)

Lemma lookup_app (k : string) (d d' : pydict) :
  lookup k (d ++ d')%list
  = match lookup k d with
    | Some v => Some v
    | None => lookup k d'
    end.
Proof.
  induction d as [|[k0 v0] d IH]; cbn [List.app lookup]; [reflexivity|].
  now destruct (String.eqb k k0).
Qed.

Lemma lookup_setdefault (k k' : string) (v' : pyval) (d : pydict) :
  lookup k (setdefault k' v' d)
  = match lookup k d with
    | Some v => Some v
    | None => if String.eqb k k' then Some v' else None
    end.
Proof.
  unfold setdefault. destruct (lookup k' d) as [x|] eqn:E.
  - destruct (lookup k d) eqn:Ek; [reflexivity|].
    destruct (String.eqb k k') eqn:Ekk; [|reflexivity].
    apply String.eqb_eq in Ekk. congruence.
  - rewrite lookup_app. cbn [lookup]. reflexivity.
Qed.

(** X23: [load_settings] never replaces what the settings file says.  Every
    key of the file keeps its value, a null or an empty one included; only
    [user_agent], [timeout_seconds] and [max_items] get a default, and only
    when the file lacks them.  The proxy of the environment is not looked at
    once the file exists. *)
Theorem X23_settings_file_wins (cfg : pydict) (env_proxy : pyval) :
  exists s,
    load_settings (Some (PDict cfg)) env_proxy = Ok (PDict s)
    /\ forall k, lookup k s
                 = match lookup k cfg with
                   | Some v => Some v
                   | None => default_setting k
                   end.
Proof.
  eexists. split; [reflexivity|]. intros k.
  rewrite !lookup_setdefault. unfold default_setting.
  destruct (lookup k cfg); [reflexivity|].
  destruct (String.eqb k "user_agent"); [reflexivity|].
  destruct (String.eqb k "timeout_seconds"); reflexivity.
Qed.

(** ** The columns of a flattened record *)

Lemma dict_set_fresh {A : Type} (k : string) (v : A) (d : list (string * A)) :
  ~ In k (map fst d) -> dict_set k v d = (d ++ [(k, v)])%list.
Proof.
  induction d as [|[k0 v0] d IH]; intros H; [reflexivity|].
  cbn [dict_set map fst In List.app] in *.
  destruct (String.eqb k k0) eqn:E.
  - apply String.eqb_eq in E. exfalso. apply H. left. now subst.
  - rewrite IH; [reflexivity|]. intros Hin. apply H. now right.
Qed.

Lemma flatten_from_nodup (record : pyval) (fo : list string) :
  forall acc,
    NoDup fo ->
    (forall k, In k fo -> ~ In k (map fst acc)) ->
    fold_left (fun out path =>
                 dict_set path (csv_cell (walk_path record path)) out) fo acc
    = (acc ++ map (fun k => (k, csv_cell (walk_path record k))) fo)%list.
Proof.
  induction fo as [|p fo IH]; intros acc Hnd Hfresh; cbn [fold_left map].
  - now rewrite app_nil_r.
  - inversion Hnd as [|? ? Hp Hnd']; subst.
    rewrite dict_set_fresh by (apply Hfresh; now left).
    rewrite IH; [now rewrite <- app_assoc | exact Hnd' |].
    intros k Hk. rewrite map_app, in_app_iff. cbn [map fst In].
    intros [Hin | [<- | []]].
    + apply (Hfresh k); [now right | exact Hin].
    + exact (Hp Hk).
Qed.

(** X24: a flattened record has the columns asked for, in the order asked
    for.  When no column is asked for twice, [flatten_for_csv] returns one
    entry per column and in column order, whatever the record holds. *)
Theorem X24_flatten_keeps_column_order (record : pyval)
    (field_order : list string) :
  NoDup field_order ->
  flatten_for_csv record field_order
  = map (fun k => (k, csv_cell (walk_path record k))) field_order.
Proof.
  intros H. unfold flatten_for_csv.
  rewrite flatten_from_nodup; [reflexivity | exact H |].
  intros k _ [].
Qed.

Lemma nodup_main_field_order : NoDup main_field_order.
Proof.
  unfold main_field_order.
  repeat (constructor; [cbn [In]; intros H;
                        repeat (destruct H as [H | H]; [discriminate|]);
                        exact H|]).
  constructor.
Qed.

Lemma X24_flatten_keeps_column_order_witness :
  flatten_for_csv (PDict text_only) main_field_order
  = map (fun k => (k, csv_cell (walk_path (PDict text_only) k)))
      main_field_order.
Proof.
  apply (X24_flatten_keeps_column_order (PDict text_only) main_field_order).
  exact nodup_main_field_order.
Defined.
